(** * The coupon model of the e-commerce dashboard

    A shallow embedding of [ecommerce/static/js/models/coupon_model.js]:
    the JavaScript values the model's attributes hold, the built-ins and
    library helpers the file calls (underscore, Backbone, Backbone.Validation,
    moment), the regular expression of the course id pattern, and the
    model's own methods as functions on an explicit state. *)

From Stdlib Require Import ZArith Ascii String Bool Lia.
From stdpp Require Import base option list gmap strings pretty.

Local Open Scope string_scope.
Local Open Scope list_scope.
Local Open Scope Z_scope.

(** ** JavaScript values *)

Module JS.

(** Numbers.  A finite number is kept as the exact decimal [m * 10^e] in
    normal form ([m] has no trailing zero, and zero is [Dec 0 0]).  The
    integers [parseInt] reads are rounded to doubles as the engine rounds
    them.  The decimals [parseFloat] reads are kept as they are written:
    the model agrees with the engine on the literals of at most 15
    significant digits that are within the range of the doubles, and does
    not round the others.  The sign of zero is left out. *)
Inductive JSNum : Type :=
  | NaN
  | Infinity (negative : bool)
  | Dec (m e : Z).

Inductive JSValue : Type :=
  | VUndefined
  | VNull
  | VBool (b : bool)
  | VNum (n : JSNum)
  | VStr (s : string).

#[global] Instance JSNum_eq_dec : EqDecision JSNum.
Proof. solve_decision. Defined.

#[global] Instance JSValue_eq_dec : EqDecision JSValue.
Proof. solve_decision. Defined.

Fixpoint strip_zeros (fuel : nat) (m e : Z) : Z * Z :=
  match fuel with
  | O => (m, e)
  | S fuel' => if (m mod 10 =? 0) then strip_zeros fuel' (m / 10) (e + 1) else (m, e)
  end.

Definition mkDec (m e : Z) : JSNum :=
  if m =? 0 then Dec 0 0
  else let '(m', e') := strip_zeros (Z.to_nat (Z.log2 (Z.abs m))) m e in Dec m' e'.

Definition int (z : Z) : JSNum := mkDec z 0.

(** [a === b] *)
Definition strict_eq (a b : JSValue) : bool :=
  match a, b with
  | VNum NaN, _ | _, VNum NaN => false
  | _, _ => bool_decide (a = b)
  end.

(** [_.isEqual] on primitive values: as [===], but NaN equals itself. *)
Definition isEqual (a b : JSValue) : bool := bool_decide (a = b).

(** ToBoolean, as [||] and [&&] use it. *)
Definition truthy (v : JSValue) : bool :=
  match v with
  | VUndefined | VNull => false
  | VBool b => b
  | VNum NaN => false
  | VNum (Infinity _) => true
  | VNum (Dec m _) => negb (m =? 0)
  | VStr s => negb (bool_decide (s = ""))
  end.

(** *** Characters *)

Definition code (c : ascii) : Z := Z.of_N (N_of_ascii c).

(** A character of a text is a code unit below 256.  Among these the
    white space and the line terminators are the codes 9 to 13, the space
    and the no-break space; the texts of the model hold no code unit from
    256 on, so none of the other Unicode spaces. *)
Definition is_space (c : ascii) : bool :=
  let n := code c in ((9 <=? n) && (n <=? 13)) || (n =? 32) || (n =? 160).

Definition digit_of (c : ascii) : option Z :=
  let n := code c in
  if (48 <=? n) && (n <=? 57) then Some (n - 48) else None.

Definition hex_digit_of (c : ascii) : option Z :=
  let n := code c in
  if (48 <=? n) && (n <=? 57) then Some (n - 48)
  else if (97 <=? n) && (n <=? 102) then Some (n - 87)
  else if (65 <=? n) && (n <=? 70) then Some (n - 55)
  else None.

Fixpoint skip_spaces (s : string) : string :=
  match s with
  | String c s' => if is_space c then skip_spaces s' else s
  | EmptyString => s
  end.

(** The longest run of digits at the head of [s], and what follows it. *)
Fixpoint take_digits (dig : ascii -> option Z) (s : string) : list Z * string :=
  match s with
  | String c s' =>
      match dig c with
      | Some d => let '(ds, rest) := take_digits dig s' in (d :: ds, rest)
      | None => ([], s)
      end
  | EmptyString => ([], s)
  end.

Definition digits_value (radix : Z) (ds : list Z) : Z :=
  fold_left (fun acc d => acc * radix + d) ds 0.

(** An optional sign at the head of [s]: whether it is a minus, and the rest. *)
Definition take_sign (s : string) : bool * string :=
  match s with
  | String "-" s' => (true, s')
  | String "+" s' => (false, s')
  | _ => (false, s)
  end.

(** *** Number to string (Number.prototype.toString, radix 10) *)

Definition digits_string (m : Z) : string := pretty (Z.abs m).

Fixpoint zeros (n : nat) : string :=
  match n with O => "" | S n' => String "0" (zeros n') end.

Fixpoint str_take (n : nat) (s : string) : string :=
  match n, s with
  | S n', String c s' => String c (str_take n' s')
  | _, _ => ""
  end.

Fixpoint str_drop (n : nat) (s : string) : string :=
  match n, s with
  | S n', String c s' => str_drop n' s'
  | _, _ => s
  end.

Definition num_to_string (x : JSNum) : string :=
  match x with
  | NaN => "NaN"
  | Infinity neg => if neg then "-Infinity" else "Infinity"
  | Dec m e =>
      if m =? 0 then "0" else
      let sgn := if m <? 0 then "-" else "" in
      let ds := digits_string m in
      let k := Z.of_nat (String.length ds) in
      let n := k + e in
      sgn +:+
      (if (k <=? n) && (n <=? 21) then ds +:+ zeros (Z.to_nat (n - k))
       else if (0 <? n) && (n <=? 21) then
         str_take (Z.to_nat n) ds +:+ "." +:+ str_drop (Z.to_nat n) ds
       else if (-6 <? n) && (n <=? 0) then "0." +:+ zeros (Z.to_nat (- n)) +:+ ds
       else
         let ex := (if n - 1 <? 0 then "-" else "+") +:+ pretty (Z.abs (n - 1)) in
         if k =? 1 then ds +:+ "e" +:+ ex
         else str_take 1 ds +:+ "." +:+ str_drop 1 ds +:+ "e" +:+ ex)
  end.

(** ToString *)
Definition to_string (v : JSValue) : string :=
  match v with
  | VUndefined => "undefined"
  | VNull => "null"
  | VBool b => if b then "true" else "false"
  | VNum n => num_to_string n
  | VStr s => s
  end.

(** *** parseInt (one argument, so radix 10 unless the text starts 0x) *)

(** The number value of an integer: the integer itself below 2^53, and
    beyond that the nearest double, a tie going to the even one, or
    infinity from 2^1024 on. *)
Definition round_integer (z : Z) : JSNum :=
  let a := Z.abs z in
  if a <? 2 ^ 53 then int z
  else
    let shift := Z.log2 a - 52 in
    let q := Z.shiftr a shift in
    let r := a - Z.shiftl q shift in
    let half := 2 ^ (shift - 1) in
    let q' := if (half <? r) || ((r =? half) && Z.odd q) then q + 1 else q in
    let v := Z.shiftl q' shift in
    if 2 ^ 1024 <=? v then Infinity (z <? 0) else int (if z <? 0 then - v else v).

Definition parseInt (v : JSValue) : JSNum :=
  let s := skip_spaces (to_string v) in
  let '(neg, s) := take_sign s in
  let '(radix, dig, s) :=
    match s with
    | String "0" (String "x" s') | String "0" (String "X" s') => (16, hex_digit_of, s')
    | _ => (10, digit_of, s)
    end in
  match take_digits dig s with
  | ([], _) => NaN
  | (ds, _) =>
      let z := digits_value radix ds in round_integer (if neg then - z else z)
  end.

(** *** parseFloat: the longest prefix that is a decimal literal *)

(** An exponent part [e[+-]ddd] at the head of [s], when there is one. *)
Definition take_exponent (s : string) : Z :=
  match s with
  | String c s' =>
      if bool_decide (c = "e"%char) || bool_decide (c = "E"%char) then
        let '(neg, s'') := take_sign s' in
        match take_digits digit_of s'' with
        | ([], _) => 0
        | (ds, _) => let z := digits_value 10 ds in if neg then - z else z
        end
      else 0
  | EmptyString => 0
  end.

Fixpoint starts_with (p s : string) : bool :=
  match p, s with
  | EmptyString, _ => true
  | String a p', String b s' => bool_decide (a = b) && starts_with p' s'
  | _, _ => false
  end.

Definition parseFloat (v : JSValue) : JSNum :=
  let s := skip_spaces (to_string v) in
  let '(neg, s) := take_sign s in
  if starts_with "Infinity" s then Infinity neg else
  let '(ip, s1) := take_digits digit_of s in
  let '(fp, s2) :=
    match s1 with
    | String "." s' =>
        let '(fp, s'') := take_digits digit_of s' in
        match ip, fp with
        | [], [] => ([], s1)
        | _, _ => (fp, s'')
        end
    | _ => ([], s1)
    end in
  match ip, fp with
  | [], [] => NaN
  | _, _ =>
      let m := digits_value 10 (ip ++ fp) in
      let e := take_exponent s2 - Z.of_nat (length fp) in
      mkDec (if neg then - m else m) e
  end.

(** *** underscore *)

(** [_.isEmpty]: [null] and [undefined] are empty, a string is empty when
    its length is 0, and a number or a boolean has no own keys, so it is
    empty as well. *)
Definition isEmpty (v : JSValue) : bool :=
  match v with
  | VUndefined | VNull => true
  | VStr s => bool_decide (s = "")
  | VBool _ | VNum _ => true
  end.

End JS.

Export JS.

(** ** Regular expressions

    The part of the JavaScript regular expression syntax the pattern of the
    model uses, its language, and a matcher by derivatives.
    [String.prototype.match] with a pattern that has no anchor searches the
    string for a matching substring. *)

Module Regex.

Inductive regex : Type :=
  | Void
  | Eps
  | Chr (c : ascii)                       (* an escaped or literal character *)
  | Class (negated : bool) (cs : list ascii)   (* [abc] and [^abc] *)
  | Alt (r1 r2 : regex)                   (* r1|r2 *)
  | Seq (r1 r2 : regex)
  | Star (r : regex)                      (* r* *)
  | Plus (r : regex).                     (* r+ *)

Definition class_mem (negated : bool) (cs : list ascii) (c : ascii) : bool :=
  xorb negated (bool_decide (c ∈ cs)).

Inductive matches : regex -> list ascii -> Prop :=
  | MEps : matches Eps []
  | MChr c : matches (Chr c) [c]
  | MClass neg cs c : class_mem neg cs c = true -> matches (Class neg cs) [c]
  | MAltL r1 r2 w : matches r1 w -> matches (Alt r1 r2) w
  | MAltR r1 r2 w : matches r2 w -> matches (Alt r1 r2) w
  | MSeq r1 r2 w1 w2 : matches r1 w1 -> matches r2 w2 -> matches (Seq r1 r2) (w1 ++ w2)
  | MStarNil r : matches (Star r) []
  | MStarApp r w1 w2 : matches r w1 -> matches (Star r) w2 -> matches (Star r) (w1 ++ w2)
  | MPlus r w1 w2 : matches r w1 -> matches (Star r) w2 -> matches (Plus r) (w1 ++ w2).

Fixpoint nullable (r : regex) : bool :=
  match r with
  | Void | Chr _ | Class _ _ => false
  | Eps | Star _ => true
  | Alt r1 r2 => nullable r1 || nullable r2
  | Seq r1 r2 => nullable r1 && nullable r2
  | Plus r => nullable r
  end.

Fixpoint der (a : ascii) (r : regex) : regex :=
  match r with
  | Void | Eps => Void
  | Chr c => if bool_decide (a = c) then Eps else Void
  | Class neg cs => if class_mem neg cs a then Eps else Void
  | Alt r1 r2 => Alt (der a r1) (der a r2)
  | Seq r1 r2 =>
      if nullable r1 then Alt (Seq (der a r1) r2) (der a r2) else Seq (der a r1) r2
  | Star r => Seq (der a r) (Star r)
  | Plus r => Seq (der a r) (Star r)
  end.

(** Some prefix of [w] is in the language of [r]. *)
Fixpoint match_prefix (r : regex) (w : list ascii) : bool :=
  nullable r ||
  match w with
  | [] => false
  | a :: w' => match_prefix (der a r) w'
  end.

(** Some substring of [w] is in the language of [r]: what [match] and
    [test] decide for a pattern without anchors. *)
Fixpoint search (r : regex) (w : list ascii) : bool :=
  match_prefix r w ||
  match w with
  | [] => false
  | _ :: w' => search r w'
  end.

Definition test (r : regex) (s : string) : bool := search r (list_ascii_of_string s).

End Regex.

Export Regex.

(** ** moment

    The date library is not part of the repository.  A moment is a point
    in time, valid or not: a valid one ([At]), an invalid one that has no
    date ([InvalidDate], its time is NaN), or an invalid one that still
    carries a date ([InvalidAt]), as moment 2.10 builds from a text it could
    not parse in full.  [isBefore] and [isAfter] compare the times the two
    moments carry and do not look at their validity, as in moment 2.10: a
    comparison with NaN is false.  The parser [moment(val, format)] itself
    is a parameter of the model below. *)

Module Moment.

Inductive Moment : Type :=
  | InvalidDate
  | At (valueOf : Z)
  | InvalidAt (valueOf : Z).

Definition isValid (m : Moment) : bool :=
  match m with At _ => true | InvalidDate | InvalidAt _ => false end.

(** [+m]: the time of a moment, [None] for NaN. *)
Definition time_of (m : Moment) : option Z :=
  match m with
  | InvalidDate => None
  | At t | InvalidAt t => Some t
  end.

Definition isBefore (m other : Moment) : bool :=
  match time_of m, time_of other with
  | Some t, Some u => t <? u
  | _, _ => false
  end.

Definition isAfter (m other : Moment) : bool :=
  match time_of m, time_of other with
  | Some t, Some u => u <? t
  | _, _ => false
  end.

End Moment.

Export Moment.

(** A parser to run the model with.  It accepts exactly the texts
    [MM/DD/YYYY] that name a day of the calendar and places them at midnight
    UTC; moment itself accepts more. *)

Definition two_digits (a b : ascii) : option Z :=
  match digit_of a, digit_of b with
  | Some x, Some y => Some (10 * x + y)
  | _, _ => None
  end.

Definition is_leap (y : Z) : bool :=
  ((y mod 4 =? 0) && negb (y mod 100 =? 0)) || (y mod 400 =? 0).

Definition days_in_month (y m : Z) : Z :=
  if m =? 2 then (if is_leap y then 29 else 28)
  else if (m =? 4) || (m =? 6) || (m =? 9) || (m =? 11) then 30 else 31.

(** Days since 1970-01-01 of a civil date. *)
Definition days_from_civil (y m d : Z) : Z :=
  let y' := if m <=? 2 then y - 1 else y in
  let era := y' / 400 in
  let yoe := y' - era * 400 in
  let doy := (153 * (if 2 <? m then m - 3 else m + 9) + 2) / 5 + d - 1 in
  let doe := yoe * 365 + yoe / 4 - yoe / 100 + doy in
  era * 146097 + doe - 719468.

Definition strictMoment (val : JSValue) (format : string) : Moment :=
  match val with
  | VStr (String m1 (String m2 (String "/" (String d1 (String d2 (String "/"
      (String y1 (String y2 (String y3 (String y4 EmptyString)))))))))) =>
      match two_digits m1 m2, two_digits d1 d2, two_digits y1 y2, two_digits y3 y4 with
      | Some m, Some d, Some yh, Some yl =>
          let y := 100 * yh + yl in
          if (1 <=? m) && (m <=? 12) && (1 <=? d) && (d <=? days_in_month y m)
          then At (days_from_civil y m d * 86400000)
          else InvalidDate
      | _, _, _, _ => InvalidDate
      end
  | _ => InvalidDate
  end.

(** The same parser with what moment 2.10 does when the text is refused:
    the moment is invalid and still carries a time, here the start of the
    day [today], counted in days since 1970-01-01. *)
Definition datedMoment (today : Z) (val : JSValue) (format : string) : Moment :=
  match strictMoment val format with
  | InvalidDate => InvalidAt (today * 86400000)
  | m => m
  end.

Definition new_year_2026 : Z := days_from_civil 2026 1 1.

(** ** Backbone.Validation *)

Module Validation.

Fixpoint drop_spaces (w : list ascii) : list ascii :=
  match w with
  | c :: w' => if is_space c then drop_spaces w' else w
  | [] => []
  end.

(** [String.prototype.trim] *)
Definition trim (s : string) : string :=
  string_of_list_ascii
    (reverse (drop_spaces (reverse (drop_spaces (list_ascii_of_string s))))).

(** [hasValue]: not null, not undefined, not a blank string. *)
Definition hasValue (v : JSValue) : bool :=
  match v with
  | VUndefined | VNull => false
  | VStr s => negb (bool_decide (trim s = ""))
  | VBool _ | VNum _ => true
  end.

Inductive Message : Type :=
  | Text (s : string)        (* a message of the model, through gettext *)
  | IsRequired (attr : string).   (* the library's message for a missing attribute *)

(** What a validator returns: nothing, [false] (the attribute is optional
    and absent: skip the other validators), or a message. *)
Inductive Verdict : Type :=
  | Pass
  | Skip
  | Fail (msg : Message).

(** The reduction of [validateAttr] over the validators of an attribute. *)
Definition combine (memo result : Verdict) : Verdict :=
  match result, memo with
  | Skip, _ | _, Skip => Skip
  | Fail m, Pass => Fail m
  | _, _ => memo
  end.

End Validation.

Export Validation.

(** ** The model *)

(** The pattern [/[^/+]+(\/|\+)[^/+]+(\/|\+)[^/]+/] *)
Definition courseId : regex :=
  Seq (Plus (Class true ["/"; "+"]%char))
 (Seq (Alt (Chr "/") (Chr "+"))
 (Seq (Plus (Class true ["/"; "+"]%char))
 (Seq (Alt (Chr "/") (Chr "+"))
      (Plus (Class true ["/"]%char))))).

Definition patterns (name : string) : option regex :=
  if bool_decide (name = "courseId") then Some courseId else None.

Definition messages (name : string) : string :=
  if bool_decide (name = "courseId") then "The course ID is invalid." else "".

Definition urlRoot : string := "/api/v2/coupons/".

Definition dateFormat : string := "MM/DD/YYYY".

(** A stock record, a product of a course (a seat), a course. *)
Record StockRecord : Type := { stockrecord_id : JSValue }.

Record Product : Type := {
  certificate_type : option JSValue;   (* [None]: the attribute is absent *)
  seatTypeDisplayName : JSValue;       (* what getSeatTypeDisplayName() returns *)
  stockrecords : list StockRecord
}.

Record Course : Type := { products : list Product }.

#[global] Instance StockRecord_eq_dec : EqDecision StockRecord.
Proof. solve_decision. Defined.
#[global] Instance Product_eq_dec : EqDecision Product.
Proof. solve_decision. Defined.
#[global] Instance Course_eq_dec : EqDecision Course.
Proof. solve_decision. Defined.

(** Modelled from the spec: [models/course_model.js], which defines
    [Course.seats], is not among the sources; the seats of a course are all
    the products on it. *)
Definition seats (c : Course) : list Product := products c.

(** An entry of the [seatTypes] attribute. *)
Record SeatType : Type := { value : JSValue; label : JSValue }.

Inductive Exn : Type :=
  | TypeError (what : string).

Inductive Result (A : Type) : Type :=
  | Ok (a : A)
  | Throw (e : Exn).
Arguments Ok {A} a.
Arguments Throw {A} e.

(** The model with what it refers to: its primitive attributes, the
    [seatTypes] and [course] attributes (the latter a reference into the
    store of Course models, which [findOrCreate] shares between all who ask
    for the same id), the [listenTo] registrations on courses, the
    course fetches that have been issued and not answered, and the number
    of views that [Backbone.Validation.bind] has bound to the model. *)
Record State : Type := {
  attributes : gmap string JSValue;
  seatTypes : option (list SeatType);
  course : option string;
  listeningTo : list string;
  courses : gmap string Course;
  fetching : list string;
  associatedViews : nat
}.

Definition M (A : Type) : Type := State -> Result A * State.

#[global] Instance M_ret : MRet M := fun A a st => (Ok a, st).

#[global] Instance M_bind : MBind M := fun A B k m st =>
  match m st with
  | (Ok a, st') => k a st'
  | (Throw e, st') => (Throw e, st')
  end.

Definition throw {A} (e : Exn) : M A := fun st => (Throw e, st).

Definition get (st : State) (key : string) : JSValue :=
  default VUndefined (attributes st !! key).

Definition with_attribute (key : string) (val : JSValue) (st : State) : State :=
  {| attributes := <[key := val]> (attributes st);
     seatTypes := seatTypes st; course := course st;
     listeningTo := listeningTo st; courses := courses st;
     fetching := fetching st; associatedViews := associatedViews st |}.

Definition with_seatTypes (l : list SeatType) (st : State) : State :=
  {| attributes := attributes st;
     seatTypes := Some l; course := course st;
     listeningTo := listeningTo st; courses := courses st;
     fetching := fetching st; associatedViews := associatedViews st |}.

(** [Backbone.Validation.bind(view)]: one more view is bound to the model. *)
Definition bind (st : State) : State :=
  {| attributes := attributes st;
     seatTypes := seatTypes st; course := course st;
     listeningTo := listeningTo st; courses := courses st;
     fetching := fetching st; associatedViews := S (associatedViews st) |}.

(** [Course.findOrCreate({id: key})]: the course of the store, or a new
    one, without products yet, which the store keeps. *)
Definition findOrCreate (key : string) (store : gmap string Course) : gmap string Course :=
  match store !! key with
  | Some _ => store
  | None => <[key := {| products := [] |}]> store
  end.

(** [collection.findWhere({certificate_type: v})]: the first product that
    has the attribute with a value [===] to [v]. *)
Definition is_match (v : JSValue) (p : Product) : bool :=
  match certificate_type p with
  | Some c => strict_eq v c
  | None => false
  end.

Fixpoint findWhere (ps : list Product) (v : JSValue) : option Product :=
  match ps with
  | [] => None
  | p :: ps' => if is_match v p then Some p else findWhere ps' v
  end.

(** [val.get('certificate_type')] *)
Definition get_certificate_type (p : Product) : JSValue :=
  default VUndefined (certificate_type p).

Definition isEnrollmentCode (attrs : gmap string JSValue) : bool :=
  strict_eq (default VUndefined (attrs !! "code_type")) (VStr "enrollment").

Definition isDiscountCode (attrs : gmap string JSValue) : bool :=
  strict_eq (default VUndefined (attrs !! "code_type")) (VStr "discount").

(** The payload and the options of the request [save] hands to Backbone. *)
Record Data : Type := {
  title : JSValue;
  client_username : JSValue;
  start_date : JSValue;
  end_date : JSValue;
  stock_record_ids : list JSNum;
  code : JSValue;
  voucher_type : JSValue;
  quantity : JSNum;
  price : option JSNum;
  benefit_type : option JSValue;
  benefit_value : option JSNum
}.

Record Options : Type := {
  type : option string;
  headers : option (list (string * JSValue));
  contentType : option string
}.

Record Request : Type := {
  request_options : Options;
  data : Data
}.

Definition with_quantity (q : JSNum) (d : Data) : Data :=
  {| title := title d; client_username := client_username d;
     start_date := start_date d; end_date := end_date d;
     stock_record_ids := stock_record_ids d; code := code d;
     voucher_type := voucher_type d; quantity := q;
     price := price d; benefit_type := benefit_type d;
     benefit_value := benefit_value d |}.

Definition with_benefit (p : JSNum) (t : JSValue) (v : JSNum) (d : Data) : Data :=
  {| title := title d; client_username := client_username d;
     start_date := start_date d; end_date := end_date d;
     stock_record_ids := stock_record_ids d; code := code d;
     voucher_type := voucher_type d; quantity := quantity d;
     price := Some p; benefit_type := Some t;
     benefit_value := Some v |}.

(** [_.defaults(options, {...})]: fill in what the caller left undefined. *)
Definition defaults (options : Options) (csrftoken : JSValue) : Options :=
  {| type := Some (default "POST" (type options));
     headers := Some (default [("X-CSRFToken", csrftoken)] (headers options));
     contentType := Some (default "application/json" (contentType options)) |}.

Section Model.

(** [moment(val, format)] *)
Variable moment : JSValue -> string -> Moment.

Inductive Validator : Type :=
  | pattern (name : string)
  | required (isRequired : gmap string JSValue -> bool)
  | fn (f : gmap string JSValue -> JSValue -> option string).

Definition validate_start_date (this : gmap string JSValue) (val : JSValue) : option string :=
  if isEmpty val then Some "Start date is required"
  else
    let isValid := isValid (moment val dateFormat) in
    if negb isValid then Some "Start date is invalid"
    else
      let endDate := moment (default VUndefined (this !! "end_date")) dateFormat in
      let isBefore := isBefore (moment val dateFormat) endDate in
      (* a moment object is truthy *)
      if true && negb isBefore then Some "Must occur before end date"
      else None.

Definition validate_end_date (this : gmap string JSValue) (val : JSValue) : option string :=
  if isEmpty val then Some "End date is required"
  else
    let isValid := isValid (moment val dateFormat) in
    if negb isValid then Some "End date is invalid"
    else
      let startDate := moment (default VUndefined (this !! "start_date")) dateFormat in
      let isAfter := isAfter (moment val dateFormat) startDate in
      if true && negb isAfter then Some "Must occur after start date"
      else None.

Definition validation : list (string * list Validator) :=
  [ ("course_id", [pattern "courseId"]);
    ("title", [required (fun _ => true)]);
    ("client_username", [required (fun _ => true)]);
    ("seat_type", [required (fun _ => true)]);
    ("price", [required isEnrollmentCode]);
    ("benefit_value", [required isDiscountCode]);
    ("start_date", [fn validate_start_date]);
    ("end_date", [fn validate_end_date]) ].

Fixpoint getValidators (table : list (string * list Validator)) (attr : string)
  : list Validator :=
  match table with
  | [] => []
  | (a, vs) :: table' => if bool_decide (a = attr) then vs else getValidators table' attr
  end.

(** One validator of Backbone.Validation on the value of an attribute. *)
Definition run_validator (this : gmap string JSValue) (attr : string)
    (value : JSValue) (v : Validator) : Verdict :=
  match v with
  | pattern name =>
      if negb (hasValue value) ||
         negb (match patterns name with
               | Some r => test r (to_string value)
               | None => false
               end)
      then Fail (Text (messages name)) else Pass
  | required isRequired =>
      if negb (isRequired this) && negb (hasValue value) then Skip
      else if isRequired this && negb (hasValue value) then Fail (IsRequired attr)
      else Pass
  | fn f =>
      match f this value with
      | Some msg => Fail (Text msg)
      | None => Pass
      end
  end.

Definition validateAttr (this : gmap string JSValue) (attr : string) (value : JSValue)
  : Verdict :=
  fold_left (fun memo v => combine memo (run_validator this attr value v))
            (getValidators validation attr) Pass.

(** The rule of an attribute holds: what [model.isValid(attr)] finds for a
    view that is bound to the model. *)
Definition isValid_attr (this : gmap string JSValue) (attr : string) : bool :=
  match validateAttr this attr (default VUndefined (this !! attr)) with
  | Fail _ => false
  | Pass | Skip => true
  end.

(** [model.validate()]: the invalid attributes, each with its message. *)
Definition validate (this : gmap string JSValue) : list (string * Message) :=
  omap (fun '(attr, _) =>
          match validateAttr this attr (default VUndefined (this !! attr)) with
          | Fail msg => Some (attr, msg)
          | Pass | Skip => None
          end) validation.

(** The error [validate] reports on an attribute, if any. *)
Fixpoint error_on (attr : string) (errors : list (string * Message)) : option Message :=
  match errors with
  | [] => None
  | (a, msg) :: errors' => if bool_decide (a = attr) then Some msg else error_on attr errors'
  end.

(** [this.set(key, val)] for an attribute no handler listens to. *)
Definition set_attr (key : string) (val : JSValue) : M unit := fun st =>
  (Ok tt, with_attribute key val st).

(** [this.isValid(attr)], as Backbone.Validation 0.11 has it: the rule of
    the attribute is checked once for every view bound to the model, so
    with no view bound nothing is checked and the answer is [true]. *)
Definition isValid_through_views (st : State) (attr : string) : bool :=
  match associatedViews st with
  | O => true
  | S _ => isValid_attr (attributes st) attr
  end.

Definition loadCourse (value : JSValue) : M unit := fun st =>
  if isValid_through_views st "course_id" then
    let key := to_string value in
    (Ok tt,
     {| attributes := attributes st;
        seatTypes := seatTypes st;
        (* this.set('course', Course.findOrCreate({id: value})) *)
        course := Some key;
        courses := findOrCreate key (courses st);
        (* this.listenTo(this.get('course'), 'change', this.fillFromCourse, this) *)
        listeningTo := listeningTo st ++ [key];
        (* this.get('course').fetch({data: {include_products: true}}) *)
        fetching := fetching st ++ [key];
        associatedViews := associatedViews st |})
  else (Ok tt, st).

Definition fillFromCourse (c : Course) : M unit := fun st =>
  let seatTypes :=
    map (fun val => {| value := get_certificate_type val;
                       label := seatTypeDisplayName val |}) (seats c) in
  let st := with_seatTypes seatTypes st in
  match seatTypes with
  | [] => (Throw (TypeError "seatTypes[0] is undefined"), st)
  | first :: _ => set_attr "seat_type" (value first) st
  end.

Definition changeVoucherType (value : JSValue) : M unit :=
  if strict_eq value (VStr "Single use") then set_attr "quantity" (VNum (int 1))
  else mret tt.

(** [this.set(key, val)] for a primitive attribute, a field of the form:
    the attribute is written, and when its value has changed the handlers
    that [initialize] registered for it run.  The keys [course] and
    [seatTypes] are not primitive attributes: the model keeps them in
    fields of their own, which only [loadCourse] and [fillFromCourse]
    write, and a [set] of one of them from outside is not modelled (see
    [relation_key]). *)
Definition set (key : string) (val : JSValue) : M unit := fun st =>
  let changed := negb (isEqual (get st key) val) in
  let st := with_attribute key val st in
  if changed then
    if bool_decide (key = "voucher_type") then changeVoucherType val st
    else if bool_decide (key = "course_id") then loadCourse val st
    else (Ok tt, st)
  else (Ok tt, st).

Definition initialize : M unit := set "quantity" (VNum (int 1)).

(** [new Coupon(attrs)]: the attributes are those given (the model declares
    no defaults), then [initialize] runs.  Backbone.RelationalModel holds
    the change events of the constructor's [set] back until the constructor
    is done, so the handlers [initialize] has registered by then receive
    them: the one of the voucher type and the one of the course id run on
    the attributes given, if these are there.  No view is bound yet.  (The
    two handlers write different fields, so their order does not matter.) *)
Definition create (attrs : gmap string JSValue) (store : gmap string Course) : State :=
  let st :=
    snd (initialize {| attributes := attrs; seatTypes := None; course := None;
                       listeningTo := []; courses := store; fetching := [];
                       associatedViews := O |}) in
  let st :=
    match attrs !! "voucher_type" with
    | Some v => if isEqual VUndefined v then st else snd (changeVoucherType v st)
    | None => st
    end in
  match attrs !! "course_id" with
  | Some v => if isEqual VUndefined v then st else snd (loadCourse v st)
  | None => st
  end.

Fixpoint remove_first (key : string) (l : list string) : list string :=
  match l with
  | [] => []
  | k :: l' => if bool_decide (k = key) then l' else k :: remove_first key l'
  end.

(** The handlers registered on a course run one after the other; an
    exception ends the round. *)
Fixpoint trigger_change (key : string) (c : Course) (listeners : list string) : M unit :=
  match listeners with
  | [] => mret tt
  | k :: listeners' =>
      if bool_decide (k = key) then fillFromCourse c ;; trigger_change key c listeners'
      else trigger_change key c listeners'
  end.

(** The answer [c] to a fetch of the course [key] arrives: the course of
    the store takes the new data, and its handlers run if it fires
    [change].  Whether it does is up to the course model and to attributes
    of the course that are not kept here, so [fires] comes with the
    answer. *)
Definition fetched (key : string) (c : Course) (fires : bool) : M unit := fun st =>
  if bool_decide (key ∈ fetching st) then
    let st' :=
      {| attributes := attributes st; seatTypes := seatTypes st;
         course := course st; listeningTo := listeningTo st;
         courses := <[key := c]> (courses st);
         fetching := remove_first key (fetching st);
         associatedViews := associatedViews st |} in
    if fires then trigger_change key c (listeningTo st') st' else (Ok tt, st')
  else (Ok tt, st).

(** The data of [save], once the seat is found. *)
Definition build_data (st : State) (seat : Product) : Data :=
  let stockRecordIds :=
    map (fun r => parseInt (stockrecord_id r)) (stockrecords seat) in
  let data :=
    {| title := get st "title";
       client_username := get st "client_username";
       start_date := get st "start_date";
       end_date := get st "end_date";
       stock_record_ids := stockRecordIds;
       code := if truthy (get st "code") then get st "code" else VStr "";
       voucher_type := get st "voucher_type";
       quantity := parseInt (get st "quantity");
       price := None; benefit_type := None; benefit_value := None |} in
  let data :=
    if negb (strict_eq (voucher_type data) (VStr "Single use"))
       || isEmpty (get st "quantity")
    then with_quantity (int 1) data else data in
  (* switch (this.get('code_type')) *)
  if strict_eq (get st "code_type") (VStr "enrollment") then
    with_benefit (parseFloat (get st "price")) (VStr "Percentage") (int 100) data
  else if strict_eq (get st "code_type") (VStr "discount") then
    with_benefit (int 0) (get st "benefit_type")
                 (parseFloat (get st "benefit_value")) data
  else data.

(** [save(options)]: the request handed to Backbone's own [save], or the
    exception thrown before. *)
Definition save (csrftoken : JSValue) (options : Options) (st : State) : Result Request :=
  let options := defaults options csrftoken in
  match course st with
  | None => Throw (TypeError "this.get('course') is null")
  | Some key =>
      match courses st !! key with
      | None => Throw (TypeError "this.get('course') is null")
      | Some c =>
          (* this.get('course').get('products').findWhere({...}) *)
          match findWhere (products c) (get st "seat_type") with
          | None => Throw (TypeError "seat is undefined")
          | Some seat =>
              Ok {| request_options := options; data := build_data st seat |}
          end
      end
  end.

(** What happens to a model: an attribute is set, or the answer to a course
    fetch arrives. *)
Inductive Op : Type :=
  | OpSet (key : string) (val : JSValue)
  | OpFetched (key : string) (c : Course) (fires : bool).

Definition step (op : Op) (st : State) : State :=
  match op with
  | OpSet key val => snd (set key val st)
  | OpFetched key c fires => snd (fetched key c fires st)
  end.

Definition run (ops : list Op) (st : State) : State :=
  fold_left (fun st op => step op st) ops st.

End Model.

(** ** The shape of a course id

    What the pattern asks of a substring, and the shape in the words of the
    specification: the whole text is three non-empty segments, separated by
    [/] or [+]. *)

Definition separator (c : ascii) : Prop := c = "/"%char \/ c = "+"%char.

Definition segment (w : list ascii) : Prop :=
  w <> [] /\ Forall (fun c => ~ separator c) w.

Definition last_segment (w : list ascii) : Prop :=
  w <> [] /\ Forall (fun c => c <> "/"%char) w.

Definition is_separator (c : ascii) : bool :=
  bool_decide (c = "/"%char) || bool_decide (c = "+"%char).

Fixpoint segments (w : list ascii) : list (list ascii) :=
  match w with
  | [] => [[]]
  | c :: w' =>
      if is_separator c then [] :: segments w'
      else match segments w' with
           | s :: ss => (c :: s) :: ss
           | [] => [[c]]
           end
  end.

Definition non_empty (w : list ascii) : bool :=
  match w with [] => false | _ :: _ => true end.

Definition three_segments (s : string) : bool :=
  match segments (list_ascii_of_string s) with
  | [a; b; c] => non_empty a && non_empty b && non_empty c
  | _ => false
  end.

(** ** Kinds of operations *)

Definition writes_quantity (op : Op) : bool :=
  match op with
  | OpSet key _ => bool_decide (key = "quantity")
  | OpFetched _ _ _ => false
  end.

Definition is_answer (op : Op) : bool :=
  match op with
  | OpFetched _ _ _ => true
  | OpSet _ _ => false
  end.

(** ** Scenarios *)

Definition no_options : Options :=
  {| type := None; headers := None; contentType := None |}.

Definition honor_seat : Product :=
  {| certificate_type := Some (VStr "honor");
     seatTypeDisplayName := VStr "Honor";
     stockrecords := [ {| stockrecord_id := VStr "5" |} ] |}.

Definition honor_course : Course := {| products := [honor_seat] |}.

Definition verified_course : Course :=
  {| products := [ {| certificate_type := Some (VStr "verified");
                      seatTypeDisplayName := VStr "Verified";
                      stockrecords := [ {| stockrecord_id := VNum (int 7) |} ] |} ] |}.

Definition empty_course : Course := {| products := [] |}.

Definition org_101 : string := "course-v1:Org+101+2024".
Definition org_102 : string := "course-v1:Org+102+2024".

(** A new coupon, made with no attributes while the store is empty. *)
Definition new_coupon : State := create strictMoment ∅ ∅.

(** The form filled in for an enrollment code on a course with an honor seat. *)
Definition enrollment_coupon : State :=
  run strictMoment
    [ OpSet "course_id" (VStr org_101);
      OpFetched org_101 honor_course true;
      OpSet "code_type" (VStr "enrollment");
      OpSet "price" (VStr "12.50");
      OpSet "benefit_value" (VStr "7") ] new_coupon.

(** The same course, a discount code, five single use vouchers. *)
Definition discount_coupon : State :=
  run strictMoment
    [ OpSet "course_id" (VStr org_101);
      OpFetched org_101 honor_course true;
      OpSet "code_type" (VStr "discount");
      OpSet "benefit_type" (VStr "Absolute");
      OpSet "benefit_value" (VStr "7.5");
      OpSet "voucher_type" (VStr "Single use");
      OpSet "quantity" (VStr "5") ] new_coupon.

(** The seat type of the form is no longer on the course. *)
Definition stale_coupon : State :=
  run strictMoment
    [ OpSet "course_id" (VStr org_101);
      OpFetched org_101 honor_course true;
      OpSet "seat_type" (VStr "professional") ] new_coupon.

(** The course id is changed twice before any answer arrives. *)
Definition two_changes : State :=
  run strictMoment
    [ OpSet "course_id" (VStr org_101);
      OpSet "course_id" (VStr org_102) ] new_coupon.

(** The course id has been changed once. *)
Definition one_change : State :=
  run strictMoment [ OpSet "course_id" (VStr org_101) ] new_coupon.

(** Both answers arrive, the one to the first fetch last. *)
Definition late_answers : list Op :=
  [ OpFetched org_102 verified_course true; OpFetched org_101 honor_course true ].

Definition dates_in_order : gmap string JSValue :=
  {[ "start_date" := VStr "01/01/2024"; "end_date" := VStr "02/01/2024" ]}.

Definition dates_out_of_order : gmap string JSValue :=
  {[ "start_date" := VStr "02/01/2024"; "end_date" := VStr "01/01/2024" ]}.

(** ** Further notions for the properties of the model *)

(** The references of a model are consistent: its course is the one of
    the last subscription, every fetch that is not answered has its
    subscription, and the store has a course for every subscription. *)
Definition consistent (st : State) : Prop :=
  course st = last (listeningTo st) /\
  fetching st `sublist_of` listeningTo st /\
  Forall (fun key => is_Some (courses st !! key)) (listeningTo st).

(** The operation writes a course id that passes the pattern. *)
Definition enters_course (op : Op) : bool :=
  match op with
  | OpSet key val =>
      bool_decide (key = "course_id") && hasValue val && test courseId (to_string val)
  | OpFetched _ _ _ => false
  end.

(** The number of separators of a text. *)
Definition separators (s : string) : nat :=
  length (filter (fun c => is_separator c = true) (list_ascii_of_string s)).

(** A form that is filled in. *)
Definition complete_form : gmap string JSValue :=
  list_to_map
    [ ("course_id", VStr org_101); ("title", VStr "Spring codes");
      ("client_username", VStr "client"); ("seat_type", VStr "honor");
      ("code_type", VStr "enrollment"); ("price", VStr "100");
      ("start_date", VStr "01/01/2024"); ("end_date", VStr "02/01/2024") ].

(** The start date is there, the end date is not. *)
Definition start_date_only : gmap string JSValue :=
  {[ "start_date" := VStr "01/01/2024" ]}.

(** The end date is there, the start date does not parse. *)
Definition bad_start_date : gmap string JSValue :=
  {[ "start_date" := VStr "2024-01-01"; "end_date" := VStr "02/01/2024" ]}.

(** Membership in a list that is written out. *)
Ltac in_list := simpl; repeat first [by left | right].

(** A course has been resolved and no code type is chosen. *)
Definition untyped_coupon : State :=
  run strictMoment
    [ OpSet "course_id" (VStr org_101);
      OpFetched org_101 honor_course true;
      OpSet "title" (VStr "Spring codes") ] new_coupon.

(** The stock records of a seat whose ids are the decimal numerals of [zs]. *)
Definition numeral_stockrecords (zs : list Z) : list StockRecord :=
  map (fun z => {| stockrecord_id := VStr (pretty z) |}) zs.

(** The keys of the model that are not primitive attributes. *)
Definition relation_key (key : string) : bool :=
  bool_decide (key = "course") || bool_decide (key = "seatTypes").

(** The operation is a [set] of such a key from outside. *)
Definition writes_relation (op : Op) : bool :=
  match op with
  | OpSet key _ => relation_key key
  | OpFetched _ _ _ => false
  end.

(** A new coupon to which the view of the form is bound. *)
Definition bound_coupon : State := bind new_coupon.

(** Five vouchers of a single use, the quantity held as a number. *)
Definition numbered_coupon : State :=
  run strictMoment
    [ OpSet "course_id" (VStr org_101);
      OpFetched org_101 honor_course true;
      OpSet "voucher_type" (VStr "Single use");
      OpSet "quantity" (VNum (int 5)) ] new_coupon.

(** A course with a verified seat before the honor seat. *)
Definition two_seat_course : Course :=
  {| products :=
       [ {| certificate_type := Some (VStr "verified");
            seatTypeDisplayName := VStr "Verified";
            stockrecords := [ {| stockrecord_id := VNum (int 7) |} ] |};
         honor_seat ] |}.

(** The form chooses the honor seat of that course. *)
Definition honor_choice : State :=
  run strictMoment
    [ OpSet "course_id" (VStr org_101);
      OpFetched org_101 two_seat_course true;
      OpSet "seat_type" (VStr "honor") ] new_coupon.

(** The attributes the validation reads. *)
Definition validated_inputs : list string :=
  [ "course_id"; "title"; "client_username"; "seat_type"; "price";
    "benefit_value"; "start_date"; "end_date"; "code_type" ].

(** * Properties *)

(** ** The built-ins on examples *)

Example parseInt_5 : parseInt (VStr "5") = Dec 5 0.
Proof. reflexivity. Qed.
Example parseInt_hex : parseInt (VStr "  -0x1F rest") = Dec (-31) 0.
Proof. reflexivity. Qed.
Example parseInt_100 : parseInt (VStr "100") = Dec 1 2.
Proof. vm_compute. reflexivity. Qed.
Example parseInt_nan : parseInt (VStr "abc") = NaN.
Proof. reflexivity. Qed.
Example parseInt_num : parseInt (VNum (Dec 15 (-1))) = Dec 1 0.
Proof. vm_compute. reflexivity. Qed.
Example parseInt_small : parseInt (VNum (Dec 5 (-7))) = Dec 5 0.
Proof. vm_compute. reflexivity. Qed.
Example parseInt_rounds_down :
  parseInt (VStr "9007199254740993") = Dec 9007199254740992 0.
Proof. vm_compute. reflexivity. Qed.
Example parseInt_rounds_up :
  parseInt (VStr "-9007199254740995") = Dec (-9007199254740996) 0.
Proof. vm_compute. reflexivity. Qed.
Example parseInt_no_break_space :
  parseInt (VStr (String (ascii_of_N 160) "42")) = Dec 42 0.
Proof. vm_compute. reflexivity. Qed.
Example hasValue_no_break_space :
  hasValue (VStr (String (ascii_of_N 160) " ")) = false.
Proof. vm_compute. reflexivity. Qed.
Example isBefore_invalid :
  isBefore (At 5) (InvalidAt 7) = true /\ isBefore (At 5) InvalidDate = false.
Proof. split; reflexivity. Qed.
Example parseFloat_1 : parseFloat (VStr "12.50abc") = Dec 125 (-1).
Proof. vm_compute. reflexivity. Qed.
Example parseFloat_2 : parseFloat (VStr ".5e3") = Dec 5 2.
Proof. vm_compute. reflexivity. Qed.
Example parseFloat_3 : parseFloat (VStr "-1.e") = Dec (-1) 0.
Proof. vm_compute. reflexivity. Qed.
Example parseFloat_4 : parseFloat (VStr ".") = NaN.
Proof. vm_compute. reflexivity. Qed.
Example to_string_1 : num_to_string (Dec 1 21) = "1e+21".
Proof. vm_compute. reflexivity. Qed.
Example to_string_2 : num_to_string (Dec 12345 (-2)) = "123.45".
Proof. vm_compute. reflexivity. Qed.
Example to_string_3 : num_to_string (Dec (-5) (-7)) = "-5e-7".
Proof. vm_compute. reflexivity. Qed.
Example to_string_4 : num_to_string (Dec 25 (-6)) = "0.000025".
Proof. vm_compute. reflexivity. Qed.

(** ** The matcher decides the language of a pattern *)

Lemma nullable_spec r : nullable r = true <-> matches r [].
Proof.
  split.
  - induction r as [| | c | neg cs | r1 IH1 r2 IH2 | r1 IH1 r2 IH2 | r IH | r IH];
      simpl; intros H; try discriminate.
    + constructor.
    + apply orb_true_iff in H as [H | H]; [apply MAltL | apply MAltR]; auto.
    + apply andb_true_iff in H as [H1 H2]. apply (MSeq _ _ [] []); auto.
    + constructor.
    + apply (MPlus _ [] []); [auto | constructor].
  - intros H. remember [] as w eqn:Hw.
    induction H as [| c | neg cs c Hc | r1 r2 w H IH | r1 r2 w H IH
                    | r1 r2 w1 w2 H1 IH1 H2 IH2 | r | r w1 w2 H1 IH1 H2 IH2
                    | r w1 w2 H1 IH1 H2 IH2]; simpl; try discriminate; auto.
    + rewrite IH; auto.
    + rewrite IH; auto. apply orb_true_r.
    + apply app_eq_nil in Hw as [-> ->].
      rewrite IH1, IH2; auto.
    + apply app_eq_nil in Hw as [-> ->]. auto.
Qed.

Lemma der_sound a r : forall w, matches (der a r) w -> matches r (a :: w).
Proof.
  induction r as [| | c | neg cs | r1 IH1 r2 IH2 | r1 IH1 r2 IH2 | r IH | r IH];
    simpl; intros w H.
  - inversion H.
  - inversion H.
  - case_bool_decide; inversion H; subst. constructor.
  - destruct (class_mem neg cs a) eqn:Hc; inversion H; subst. by constructor.
  - inversion H; subst; [apply MAltL | apply MAltR]; auto.
  - destruct (nullable r1) eqn:Hn.
    + inversion H as [| | | ? ? ? H' | ? ? ? H' | | | |]; subst.
      * inversion H'; subst. apply (MSeq _ _ (a :: _)); auto.
      * apply (MSeq _ _ [] (a :: w)); auto. by apply nullable_spec.
    + inversion H; subst. apply (MSeq _ _ (a :: _)); auto.
  - inversion H; subst. apply (MStarApp _ (a :: _)); auto.
  - inversion H; subst. apply (MPlus _ (a :: _)); auto.
Qed.

Lemma der_complete a r w : matches r (a :: w) -> matches (der a r) w.
Proof.
  intros H. remember (a :: w) as aw eqn:Haw. revert w Haw.
  induction H as [| c | neg cs c Hc | r1 r2 v H IH | r1 r2 v H IH
                  | r1 r2 w1 w2 H1 IH1 H2 IH2 | r | r w1 w2 H1 IH1 H2 IH2
                  | r w1 w2 H1 IH1 H2 IH2]; intros w Haw; simpl; try discriminate.
  - injection Haw as -> <-. rewrite bool_decide_eq_true_2 by done. constructor.
  - injection Haw as -> <-. rewrite Hc. constructor.
  - apply MAltL; auto.
  - apply MAltR; auto.
  - destruct w1 as [| b w1']; simpl in Haw.
    + subst w2. apply nullable_spec in H1 as ->. apply MAltR; auto.
    + injection Haw as -> <-.
      destruct (nullable r1); [apply MAltL |]; apply MSeq; auto.
  - destruct w1 as [| b w1']; simpl in Haw.
    + subst w2. apply (IH2 w eq_refl).
    + injection Haw as -> <-. apply MSeq; auto.
  - destruct w1 as [| b w1']; simpl in Haw.
    + subst w2. apply (IH2 w eq_refl).
    + injection Haw as -> <-. apply MSeq; auto.
Qed.

Lemma match_prefix_spec w : forall r,
  match_prefix r w = true <-> exists p q, w = p ++ q /\ matches r p.
Proof.
  induction w as [| a w IH]; intros r; simpl.
  - rewrite orb_false_r, nullable_spec. split.
    + intros H. by exists [], [].
    + intros (p & q & Hw & H). symmetry in Hw.
      apply app_eq_nil in Hw as [-> ->]. done.
  - rewrite orb_true_iff, nullable_spec, IH. split.
    + intros [H | (p & q & -> & H)].
      * by exists [], (a :: w).
      * exists (a :: p), q. split; [done |]. by apply der_sound.
    + intros (p & q & Hw & H). destruct p as [| b p]; simpl in Hw.
      * by left.
      * injection Hw as <- ->. right. exists p, q. split; [done |].
        by apply der_complete.
Qed.

Lemma search_spec r w :
  search r w = true <-> exists pre p post, w = pre ++ p ++ post /\ matches r p.
Proof.
  induction w as [| a w IH]; cbn [search].
  - rewrite orb_false_r, match_prefix_spec. split.
    + intros (p & q & Hw & H). by exists [], p, q.
    + intros (pre & p & post & Hw & H). symmetry in Hw.
      apply app_eq_nil in Hw as [-> Hw]. by exists p, post.
  - rewrite orb_true_iff, match_prefix_spec, IH. split.
    + intros [(p & q & Hw & H) | (pre & p & post & -> & H)].
      * by exists [], p, q.
      * by exists (a :: pre), p, post.
    + intros (pre & p & post & Hw & H). destruct pre as [| b pre]; simpl in Hw.
      * left. by exists p, post.
      * injection Hw as <- ->. right. by exists pre, p, post.
Qed.

(** ** The course id pattern *)

Lemma star_class_spec neg cs w :
  matches (Star (Class neg cs)) w <-> Forall (fun c => class_mem neg cs c = true) w.
Proof.
  split.
  - intros H. remember (Star (Class neg cs)) as r eqn:Hr.
    induction H as [| | | | | | r' | r' w1 w2 H1 _ H2 IH2 |]; try discriminate.
    + constructor.
    + injection Hr as ->. inversion H1; subst. constructor; auto.
  - induction 1 as [| c w Hc _ IH].
    + constructor.
    + apply (MStarApp _ [c] w); [by constructor | done].
Qed.

Lemma plus_class_spec neg cs w :
  matches (Plus (Class neg cs)) w <->
  w <> [] /\ Forall (fun c => class_mem neg cs c = true) w.
Proof.
  split.
  - intros H. inversion H as [| | | | | | | | r w1 w2 H1 H2]; subst.
    inversion H1; subst. split; [done |].
    constructor; [done |]. by apply star_class_spec.
  - intros [Hne H]. destruct H as [| c w Hc H]; [done |].
    apply (MPlus _ [c] w); [by constructor | by apply star_class_spec].
Qed.

Lemma not_separator_class c :
  class_mem true ["/"; "+"]%char c = true <-> ~ separator c.
Proof.
  unfold class_mem, separator. simpl. case_bool_decide as H;
    rewrite !elem_of_cons, elem_of_nil in H; split; intros; try discriminate; tauto.
Qed.

Lemma not_slash_class c :
  class_mem true ["/"]%char c = true <-> c <> "/"%char.
Proof.
  unfold class_mem. simpl. case_bool_decide as H;
    rewrite elem_of_cons, elem_of_nil in H; split; intros; try discriminate; tauto.
Qed.

Lemma segment_spec w :
  matches (Plus (Class true ["/"; "+"]%char)) w <-> segment w.
Proof.
  rewrite plus_class_spec. unfold segment.
  split; intros [Hne H]; (split; [done |]); eapply Forall_impl; eauto;
    intros c; apply not_separator_class.
Qed.

Lemma last_segment_spec w :
  matches (Plus (Class true ["/"]%char)) w <-> last_segment w.
Proof.
  rewrite plus_class_spec. unfold last_segment.
  split; intros [Hne H]; (split; [done |]); eapply Forall_impl; eauto;
    intros c; apply not_slash_class.
Qed.

Lemma separator_spec w :
  matches (Alt (Chr "/") (Chr "+")) w <-> exists x, w = [x] /\ separator x.
Proof.
  split.
  - intros H. inversion H as [| | | ? ? ? H' | ? ? ? H' | | | |]; subst;
      inversion H'; subst; eexists; (split; [done |]); [by left | by right].
  - intros (x & -> & [-> | ->]); [apply MAltL | apply MAltR]; constructor.
Qed.

(** The language of the pattern. *)
Lemma courseId_spec w :
  matches courseId w <->
  exists a x b y c, w = a ++ [x] ++ b ++ [y] ++ c /\
    segment a /\ separator x /\ segment b /\ separator y /\ last_segment c.
Proof.
  unfold courseId. split.
  - intros H.
    inversion H as [| | | | | ? ? a w1 Ha H1 | | |]; subst.
    inversion H1 as [| | | | | ? ? sx w2 Hx H2 | | |]; subst.
    inversion H2 as [| | | | | ? ? b w3 Hb H3 | | |]; subst.
    inversion H3 as [| | | | | ? ? sy c Hy Hc | | |]; subst.
    apply separator_spec in Hx as (x & -> & Hx).
    apply separator_spec in Hy as (y & -> & Hy).
    exists a, x, b, y, c. split; [done |].
    by rewrite <- !segment_spec, <- last_segment_spec.
  - intros (a & x & b & y & c & -> & Ha & Hx & Hb & Hy & Hc).
    apply MSeq; [by apply segment_spec |].
    apply MSeq; [apply separator_spec; eauto |].
    apply MSeq; [by apply segment_spec |].
    apply MSeq; [apply separator_spec; eauto |].
    by apply last_segment_spec.
Qed.

(** What [match] finds in a text. *)
Lemma test_courseId_spec s :
  test courseId s = true <->
  exists pre a x b y c post,
    list_ascii_of_string s = pre ++ (a ++ [x] ++ b ++ [y] ++ c) ++ post /\
    segment a /\ separator x /\ segment b /\ separator y /\ last_segment c.
Proof.
  unfold test. rewrite search_spec. split.
  - intros (pre & p & post & Hw & H). apply courseId_spec in H.
    destruct H as (a & x & b & y & c & -> & H). by exists pre, a, x, b, y, c, post.
  - intros (pre & a & x & b & y & c & post & Hw & H).
    exists pre, (a ++ [x] ++ b ++ [y] ++ c), post. split; [done |].
    apply courseId_spec. by exists a, x, b, y, c.
Qed.

(** *** A text with a match is not blank *)

Lemma drop_spaces_keeps x w :
  x ∈ w -> is_space x = false -> x ∈ drop_spaces w.
Proof.
  intros Hin Hx. induction w as [| c w IH]; [done |]. simpl.
  destruct (is_space c) eqn:Hc; [| done].
  apply elem_of_cons in Hin as [-> | Hin]; [congruence | auto].
Qed.

Lemma trim_not_blank x s :
  x ∈ list_ascii_of_string s -> is_space x = false -> trim s <> "".
Proof.
  intros Hin Hx. unfold trim.
  assert (x ∈ reverse (drop_spaces (reverse (drop_spaces (list_ascii_of_string s)))))
    as H.
  { apply elem_of_reverse. apply drop_spaces_keeps; [| done].
    apply elem_of_reverse. by apply drop_spaces_keeps. }
  destruct (reverse _) as [| c l]; [by apply elem_of_nil in H | done].
Qed.

Lemma separator_not_space x : separator x -> is_space x = false.
Proof. by intros [-> | ->]. Qed.

Lemma test_courseId_hasValue s :
  test courseId s = true -> hasValue (VStr s) = true.
Proof.
  intros H. apply test_courseId_spec in H.
  destruct H as (pre & a & x & b & y & c & post & Hw & _ & Hx & _).
  simpl. apply negb_true_iff, bool_decide_eq_false.
  apply (trim_not_blank x); [| by apply separator_not_space].
  rewrite Hw. set_solver.
Qed.

(** *** The shape of the specification *)

Lemma segments_not_nil w : segments w <> [].
Proof.
  destruct w as [| c w]; simpl; [done |].
  destruct (is_separator c); [done |]. by destruct (segments w).
Qed.

Lemma is_separator_spec c : is_separator c = true <-> separator c.
Proof.
  unfold is_separator, separator.
  rewrite orb_true_iff, !bool_decide_eq_true. done.
Qed.

Lemma segments_cons w : forall s ss,
  segments w = s :: ss ->
  Forall (fun c => ~ separator c) s /\
  ((ss = [] /\ w = s) \/
   (exists x w', separator x /\ w = s ++ x :: w' /\ segments w' = ss)).
Proof.
  induction w as [| c w IH]; simpl; intros s ss H.
  - injection H as <- <-. split; [constructor | by left].
  - destruct (is_separator c) eqn:Hc.
    + injection H as <- <-. split; [constructor |]. right.
      exists c, w. by rewrite <- is_separator_spec.
    + destruct (segments w) as [| s' ss'] eqn:Hs; [by apply segments_not_nil in Hs |].
      injection H as <- <-. destruct (IH s' ss' eq_refl) as [Hall Hw].
      split.
      * constructor; [| done]. rewrite <- is_separator_spec. congruence.
      * destruct Hw as [[-> ->] | (x & w' & Hx & -> & Hw')]; [by left |].
        right. by exists x, w'.
Qed.

Lemma non_empty_spec w : non_empty w = true -> w <> [].
Proof. by destruct w. Qed.

Lemma three_segments_spec s :
  three_segments s = true ->
  exists a x b y c, list_ascii_of_string s = a ++ [x] ++ b ++ [y] ++ c /\
    segment a /\ separator x /\ segment b /\ separator y /\ segment c.
Proof.
  unfold three_segments.
  destruct (segments (list_ascii_of_string s)) as [| a [| b [| c [| ? ?]]]] eqn:Hs;
    try discriminate.
  intros H. apply andb_true_iff in H as [H Hc]. apply andb_true_iff in H as [Ha Hb].
  apply non_empty_spec in Ha, Hb, Hc.
  apply segments_cons in Hs as [Hfa [[? _] | (x & w1 & Hx & -> & Hs)]]; [done |].
  apply segments_cons in Hs as [Hfb [[? _] | (y & w2 & Hy & -> & Hs)]]; [done |].
  apply segments_cons in Hs as [Hfc [[_ ->] | (z & w3 & _ & _ & Hs)]];
    [| by apply segments_not_nil in Hs].
  exists a, x, b, y, c. by repeat split.
Qed.

Lemma segment_last_segment w : segment w -> last_segment w.
Proof.
  intros [Hne H]. split; [done |].
  eapply Forall_impl; [exact H |]. intros c Hc ->. apply Hc. by left.
Qed.

Example test_org_101 : test courseId org_101 = true /\ three_segments org_101 = true.
Proof. split; vm_compute; reflexivity. Qed.
Example test_slashes : test courseId "Org/101/2024" = true.
Proof. vm_compute. reflexivity. Qed.
Example test_plus_in_last : test courseId "a+b+c+d" = true /\ three_segments "a+b+c+d" = false.
Proof. split; vm_compute; reflexivity. Qed.
Example test_two_segments : test courseId "Org/101" = false.
Proof. vm_compute. reflexivity. Qed.
Example test_empty_segment : test courseId "Org//2024" = false.
Proof. vm_compute. reflexivity. Qed.

(** ** The model *)

Lemma get_with_attribute_eq key val st : get (with_attribute key val st) key = val.
Proof. unfold get, with_attribute. simpl. by rewrite lookup_insert_eq. Qed.

Lemma get_with_attribute_ne key key' val st :
  key <> key' -> get (with_attribute key val st) key' = get st key'.
Proof. intros H. unfold get, with_attribute. simpl. by rewrite lookup_insert_ne. Qed.

Lemma get_with_seatTypes l st key : get (with_seatTypes l st) key = get st key.
Proof. done. Qed.

(** [fillFromCourse] writes [seatTypes] and [seat_type] and nothing else. *)
Lemma fillFromCourse_get c st key :
  key <> "seat_type" -> get (snd (fillFromCourse c st)) key = get st key.
Proof.
  intros H. unfold fillFromCourse.
  destruct (map _ (seats c)) as [| first l]; simpl; [done |].
  by rewrite get_with_attribute_ne.
Qed.

Lemma fillFromCourse_frame c st :
  let st' := snd (fillFromCourse c st) in
  course st' = course st /\ listeningTo st' = listeningTo st /\
  courses st' = courses st /\ fetching st' = fetching st.
Proof.
  unfold fillFromCourse. by destruct (map _ (seats c)) as [| first l].
Qed.

Lemma trigger_change_get key c listeners : forall st attr,
  attr <> "seat_type" ->
  get (snd (trigger_change key c listeners st)) attr = get st attr.
Proof.
  induction listeners as [| k l IH]; intros st attr Hattr; simpl; [done |].
  case_bool_decide; [| by apply IH].
  unfold mbind, M_bind.
  pose proof (fillFromCourse_get c st attr Hattr) as Hget.
  destruct (fillFromCourse c st) as [[[] | e] st1]; simpl in *; [| done].
  by rewrite IH.
Qed.

Lemma trigger_change_frame key c listeners : forall st,
  let st' := snd (trigger_change key c listeners st) in
  course st' = course st /\ listeningTo st' = listeningTo st /\
  courses st' = courses st /\ fetching st' = fetching st.
Proof.
  induction listeners as [| k l IH]; intros st; simpl; [done |].
  case_bool_decide; [| by apply IH].
  unfold mbind, M_bind.
  pose proof (fillFromCourse_frame c st) as Hfr.
  destruct (fillFromCourse c st) as [[[] | e] st1]; simpl in *; [| done].
  destruct (IH st1) as (-> & -> & -> & ->). done.
Qed.

Lemma fetched_get key c fires st attr :
  attr <> "seat_type" -> get (snd (fetched key c fires st)) attr = get st attr.
Proof.
  intros H. unfold fetched. case_bool_decide; [| done].
  destruct fires; [| done]. by rewrite trigger_change_get.
Qed.

Lemma fetched_course key c fires st :
  course (snd (fetched key c fires st)) = course st.
Proof.
  unfold fetched. case_bool_decide; [| done].
  destruct fires; [| done].
  match goal with
  | |- course (snd (trigger_change _ _ ?l ?s)) = _ =>
      destruct (trigger_change_frame key c l s) as [Hc _]; exact Hc
  end.
Qed.

Lemma changeVoucherType_single_use st :
  changeVoucherType (VStr "Single use") st =
  (Ok tt, with_attribute "quantity" (VNum (int 1)) st).
Proof. done. Qed.

Lemma changeVoucherType_quantity value st :
  get st "quantity" = VNum (int 1) ->
  get (snd (changeVoucherType value st)) "quantity" = VNum (int 1).
Proof.
  intros H. unfold changeVoucherType.
  destruct (strict_eq value (VStr "Single use")); [| done].
  apply get_with_attribute_eq.
Qed.

Section Properties.

Variable moment : JSValue -> string -> Moment.

Lemma loadCourse_get value st attr :
  get (snd (loadCourse moment value st)) attr = get st attr.
Proof. unfold loadCourse. by destruct (isValid_through_views _ _). Qed.

(** Inside the handlers the model writes attributes nobody listens to. *)
Lemma set_no_handler key val st :
  key <> "voucher_type" -> key <> "course_id" ->
  set moment key val st = set_attr key val st.
Proof.
  intros Hv Hc. unfold set, set_attr.
  destruct (negb _); [| done].
  by rewrite !bool_decide_eq_false_2.
Qed.

Lemma set_get_other key val st attr :
  key <> attr -> attr <> "quantity" ->
  get (snd (set moment key val st)) attr = get st attr.
Proof.
  intros Hne Hq. unfold set.
  destruct (negb _); [| by apply get_with_attribute_ne].
  case_bool_decide.
  - unfold changeVoucherType. destruct (strict_eq _ _); simpl.
    + by rewrite !get_with_attribute_ne.
    + by apply get_with_attribute_ne.
  - case_bool_decide.
    + rewrite loadCourse_get. by apply get_with_attribute_ne.
    + by apply get_with_attribute_ne.
Qed.

Lemma set_quantity_kept key val st :
  key <> "quantity" ->
  get st "quantity" = VNum (int 1) ->
  get (snd (set moment key val st)) "quantity" = VNum (int 1).
Proof.
  intros Hne Hq. unfold set.
  assert (get (with_attribute key val st) "quantity" = VNum (int 1)) as Hq'
    by by rewrite get_with_attribute_ne.
  destruct (negb _); [| done].
  case_bool_decide; [by apply changeVoucherType_quantity |].
  case_bool_decide; [| done]. by rewrite loadCourse_get.
Qed.

Lemma step_quantity_kept op st :
  writes_quantity op = false ->
  get st "quantity" = VNum (int 1) ->
  get (step moment op st) "quantity" = VNum (int 1).
Proof.
  destruct op as [key val | key c fires]; simpl; intros Hop Hq.
  - apply set_quantity_kept; [| done]. by apply bool_decide_eq_false in Hop.
  - by rewrite fetched_get.
Qed.

Lemma run_quantity_kept ops : forall st,
  Forall (fun op => writes_quantity op = false) ops ->
  get st "quantity" = VNum (int 1) ->
  get (run moment ops st) "quantity" = VNum (int 1).
Proof.
  induction ops as [| op ops IH]; intros st Hops Hq; [done |].
  inversion Hops; subst. simpl. apply IH; [done |].
  by apply step_quantity_kept.
Qed.

Lemma run_answers_course ops : forall st,
  Forall (fun op => is_answer op = true) ops ->
  course (run moment ops st) = course st.
Proof.
  induction ops as [| op ops IH]; intros st Hops; [done |].
  inversion Hops as [| ? ? Hop Hops']; subst. simpl. rewrite IH by done.
  destruct op; [done |]. simpl. apply fetched_course.
Qed.

Lemma isValid_course_id attrs s :
  attrs !! "course_id" = Some (VStr s) ->
  isValid_attr moment attrs "course_id" = test courseId s.
Proof.
  intros H. unfold isValid_attr, validateAttr. rewrite H. simpl.
  change (patterns "courseId") with (Some courseId). cbv beta iota.
  destruct (test courseId s) eqn:Ht.
  - apply test_courseId_hasValue in Ht. simpl in Ht. by rewrite Ht.
  - by rewrite orb_true_r.
Qed.

End Properties.

(** ** The request [save] builds *)

Lemma strict_eq_true a b : strict_eq a b = true -> a = b.
Proof.
  unfold strict_eq. intros H.
  destruct a as [| | | [] |], b as [| | | [] |]; try discriminate;
    by apply bool_decide_eq_true in H.
Qed.

Lemma findWhere_none ps v :
  (forall p, p ∈ ps -> certificate_type p <> Some v) -> findWhere ps v = None.
Proof.
  induction ps as [| p ps IH]; intros H; simpl; [done |].
  assert (is_match v p = false) as ->.
  { unfold is_match. destruct (certificate_type p) as [c |] eqn:Hc; [| done].
    destruct (strict_eq v c) eqn:Heq; [| done].
    apply strict_eq_true in Heq as ->. destruct (H p); [left | done]. }
  apply IH. intros q Hq. apply H. by right.
Qed.

Lemma strict_eq_refl v : v <> VNum NaN -> strict_eq v v = true.
Proof.
  intros H. unfold strict_eq.
  destruct v as [| | | [] |]; try done; by apply bool_decide_eq_true.
Qed.

(** [findWhere] returns the first product whose certificate type is [v]. *)
Lemma findWhere_first before seat after v :
  (forall p, p ∈ before -> certificate_type p <> Some v) ->
  certificate_type seat = Some v ->
  v <> VNum NaN ->
  findWhere (before ++ seat :: after) v = Some seat.
Proof.
  intros Hbefore Hseat Hv. induction before as [| p before IH]; simpl.
  - unfold is_match. by rewrite Hseat, strict_eq_refl.
  - assert (is_match v p = false) as ->.
    { unfold is_match. destruct (certificate_type p) as [c |] eqn:Hc; [| done].
      destruct (strict_eq v c) eqn:Heq; [| done].
      apply strict_eq_true in Heq as ->. destruct (Hbefore p); [left | done]. }
    apply IH. intros q Hq. apply Hbefore. by right.
Qed.

Lemma save_ok csrftoken options st key c seat :
  course st = Some key ->
  courses st !! key = Some c ->
  findWhere (products c) (get st "seat_type") = Some seat ->
  save csrftoken options st =
  Ok {| request_options := defaults options csrftoken; data := build_data st seat |}.
Proof. intros Hc Hs Hf. unfold save. by rewrite Hc, Hs, Hf. Qed.

(** C1: with the course resolved and the seat found, [save] builds a
    payload; for an enrollment code its price is the parsed price of the
    request, its benefit type is Percentage and its benefit value is 100,
    whatever the benefit value of the request; for a discount code its
    price is 0, its benefit type is the one of the request and its benefit
    value is the parsed benefit value of the request. *)
Theorem save_benefit csrftoken options st key c seat :
  course st = Some key ->
  courses st !! key = Some c ->
  findWhere (products c) (get st "seat_type") = Some seat ->
  (get st "code_type" = VStr "enrollment" ->
   exists req, save csrftoken options st = Ok req /\
     price (data req) = Some (parseFloat (get st "price")) /\
     benefit_type (data req) = Some (VStr "Percentage") /\
     benefit_value (data req) = Some (int 100)) /\
  (get st "code_type" = VStr "discount" ->
   exists req, save csrftoken options st = Ok req /\
     price (data req) = Some (int 0) /\
     benefit_type (data req) = Some (get st "benefit_type") /\
     benefit_value (data req) = Some (parseFloat (get st "benefit_value"))).
Proof.
  intros Hc Hs Hf. rewrite (save_ok csrftoken options _ _ _ _ Hc Hs Hf).
  split; intros Ht; eexists; (split; [reflexivity |]);
    unfold build_data; rewrite Ht; done.
Qed.

(** The quantity of the payload as [save] computes it: 1 when the voucher
    type is not Single use or [_.isEmpty] holds of the quantity of the
    request, and the parsed integer of that quantity otherwise. *)
Theorem save_quantity csrftoken options st key c seat :
  course st = Some key ->
  courses st !! key = Some c ->
  findWhere (products c) (get st "seat_type") = Some seat ->
  exists req, save csrftoken options st = Ok req /\
    quantity (data req) =
      if negb (strict_eq (get st "voucher_type") (VStr "Single use"))
         || isEmpty (get st "quantity")
      then int 1 else parseInt (get st "quantity").
Proof.
  intros Hc Hs Hf. rewrite (save_ok csrftoken options _ _ _ _ Hc Hs Hf).
  eexists; split; [reflexivity |]. unfold build_data. cbn [voucher_type data].
  by destruct (negb _ || _), (strict_eq (get st "code_type") (VStr "enrollment")),
    (strict_eq (get st "code_type") (VStr "discount")).
Qed.

(** A quantity that is a number is empty for [_.isEmpty], so the payload
    has quantity 1 then. *)
Lemma save_quantity_number csrftoken options st key c seat n :
  course st = Some key ->
  courses st !! key = Some c ->
  findWhere (products c) (get st "seat_type") = Some seat ->
  get st "quantity" = VNum n ->
  exists req, save csrftoken options st = Ok req /\ quantity (data req) = int 1.
Proof.
  intros Hc Hs Hf Hq. rewrite (save_ok csrftoken options _ _ _ _ Hc Hs Hf).
  eexists; split; [reflexivity |]. unfold build_data. cbn [voucher_type data].
  rewrite Hq. cbn [isEmpty]. rewrite orb_true_r.
  by destruct (strict_eq (get st "code_type") (VStr "enrollment")),
    (strict_eq (get st "code_type") (VStr "discount")).
Qed.

(** C6: the stock record ids of the payload are the parsed integers of the
    ids of the stock records of the seat whose certificate type is the seat
    type of the request, the first such product of the course, whatever
    products come before and after it; a seat with the one stock record of
    id "5" gives [5]. *)
Theorem save_stock_record_ids csrftoken options st key c before seat after :
  course st = Some key ->
  courses st !! key = Some c ->
  products c = before ++ seat :: after ->
  (forall p, p ∈ before -> certificate_type p <> Some (get st "seat_type")) ->
  certificate_type seat = Some (get st "seat_type") ->
  get st "seat_type" <> VNum NaN ->
  exists req, save csrftoken options st = Ok req /\
    stock_record_ids (data req) =
      map (fun r => parseInt (stockrecord_id r)) (stockrecords seat) /\
    (stockrecords seat = [ {| stockrecord_id := VStr "5" |} ] ->
     stock_record_ids (data req) = [int 5]).
Proof.
  intros Hc Hs Hp Hbefore Hseat Hv.
  assert (findWhere (products c) (get st "seat_type") = Some seat) as Hf.
  { rewrite Hp. by apply findWhere_first. }
  rewrite (save_ok csrftoken options _ _ _ _ Hc Hs Hf).
  eexists; split; [reflexivity |].
  assert (stock_record_ids (build_data st seat) =
          map (fun r => parseInt (stockrecord_id r)) (stockrecords seat)) as Hids.
  { unfold build_data.
    by destruct (negb _ || _), (strict_eq (get st "code_type") (VStr "enrollment")),
      (strict_eq (get st "code_type") (VStr "discount")). }
  cbn [data]. split; [done |]. intros H5. rewrite Hids, H5. reflexivity.
Qed.

(** C7: when no product of the resolved course has the seat type of the
    request as its certificate type, [save] throws (the seat is undefined
    and its stock records are read): no payload is built and nothing is
    handed to Backbone. *)
Theorem save_without_seat csrftoken options st key c :
  course st = Some key ->
  courses st !! key = Some c ->
  (forall p, p ∈ products c -> certificate_type p <> Some (get st "seat_type")) ->
  save csrftoken options st = Throw (TypeError "seat is undefined").
Proof.
  intros Hc Hs Hno. unfold save. rewrite Hc, Hs.
  by rewrite (findWhere_none _ _ Hno).
Qed.

(** C8: on a course without seats [fillFromCourse] throws: [seatTypes]
    has been set to the empty list, its first element is undefined, and
    [seat_type] stays as it was. *)
Theorem fillFromCourse_no_seats c st :
  seats c = [] ->
  fillFromCourse c st =
    (Throw (TypeError "seatTypes[0] is undefined"), with_seatTypes [] st) /\
  get (snd (fillFromCourse c st)) "seat_type" = get st "seat_type".
Proof.
  intros H. unfold fillFromCourse. rewrite H. done.
Qed.

Section Claims.

Variable moment : JSValue -> string -> Moment.

(** C10: a model that has just been made has quantity 1, whatever
    attributes it was made with; made with none, quantity is its only
    attribute. *)
Theorem create_quantity attrs store :
  get (create moment attrs store) "quantity" = VNum (int 1) /\
  attributes (create moment ∅ store) = {[ "quantity" := VNum (int 1) ]}.
Proof.
  split.
  - unfold create.
    assert (forall st, get st "quantity" = VNum (int 1) ->
      get match attrs !! "course_id" with
          | Some v => if isEqual VUndefined v then st else snd (loadCourse moment v st)
          | None => st
          end "quantity" = VNum (int 1)) as Hload.
    { intros st Hst. destruct (attrs !! "course_id") as [v |]; [| done].
      destruct (isEqual VUndefined v); [done |]. by rewrite loadCourse_get. }
    apply Hload.
    assert (forall st, get st "quantity" = VNum (int 1) ->
      get match attrs !! "voucher_type" with
          | Some v => if isEqual VUndefined v then st else snd (changeVoucherType v st)
          | None => st
          end "quantity" = VNum (int 1)) as Hvoucher.
    { intros st Hst. destruct (attrs !! "voucher_type") as [v |]; [| done].
      destruct (isEqual VUndefined v); [done |]. by apply changeVoucherType_quantity. }
    apply Hvoucher.
    unfold initialize, set. destruct (negb _); simpl; apply get_with_attribute_eq.
  - unfold create. rewrite !lookup_empty.
    unfold initialize, set. by destruct (negb _).
Qed.

(** C2 as amended: the handler of a change of voucher type to Single use
    sets quantity to 1 whatever it was, and it remains 1 through every
    later operation that is not itself a write of quantity. *)
Theorem changeVoucherType_quantity_kept st ops :
  Forall (fun op => writes_quantity op = false) ops ->
  let st' := snd (changeVoucherType (VStr "Single use") st) in
  get st' "quantity" = VNum (int 1) /\
  get (run moment ops st') "quantity" = VNum (int 1).
Proof.
  intros Hops st'.
  assert (get st' "quantity" = VNum (int 1)) as Hq
    by apply get_with_attribute_eq.
  split; [done |]. by apply run_quantity_kept.
Qed.

(** C5 as amended: the validation of the course id accepts a text when,
    and only when, some part of it is a segment, a separator, a segment,
    a separator and a last segment, where a segment is a non-empty run
    without [/] and [+], a separator is [/] or [+], and the last segment is
    a non-empty run without [/]; so a text of three segments is accepted. *)
Theorem course_id_accepted attrs s :
  (isValid_attr moment (<["course_id" := VStr s]> attrs) "course_id" = true <->
   exists pre a x b y c post,
     list_ascii_of_string s = pre ++ (a ++ [x] ++ b ++ [y] ++ c) ++ post /\
     segment a /\ separator x /\ segment b /\ separator y /\ last_segment c) /\
  (three_segments s = true ->
   isValid_attr moment (<["course_id" := VStr s]> attrs) "course_id" = true).
Proof.
  rewrite (isValid_course_id moment _ s) by apply lookup_insert_eq.
  split; [apply test_courseId_spec |].
  intros H. apply three_segments_spec in H as (a & x & b & y & c & Hs & H).
  apply test_courseId_spec. exists [], a, x, b, y, c, [].
  rewrite app_nil_r. simpl. split; [done |].
  destruct H as (? & ? & ? & ? & ?).
  split_and!; [done | done | done | done | by apply segment_last_segment].
Qed.

(** C9 as amended: a change of the course id to a text that passes the
    pattern issues one fetch and adds one subscription, the earlier ones
    staying in place, and makes the course the one of the new id; the
    course remains that one whatever answers arrive afterwards, in any
    order. *)
Theorem course_id_change st s answers :
  test courseId s = true ->
  get st "course_id" <> VStr s ->
  Forall (fun op => is_answer op = true) answers ->
  let st' := step moment (OpSet "course_id" (VStr s)) st in
  fetching st' = fetching st ++ [s] /\
  listeningTo st' = listeningTo st ++ [s] /\
  course st' = Some s /\
  course (run moment answers st') = Some s.
Proof.
  intros Ht Hne Hans st'.
  assert (fetching st' = fetching st ++ [s] /\
          listeningTo st' = listeningTo st ++ [s] /\ course st' = Some s) as H.
  { subst st'. unfold step, set, isEqual.
    rewrite (bool_decide_eq_false_2 (get st "course_id" = VStr s)) by done.
    cbn [negb]. rewrite bool_decide_eq_false_2 by done.
    rewrite bool_decide_eq_true_2 by done.
    unfold loadCourse, isValid_through_views. cbn [associatedViews with_attribute].
    rewrite (isValid_course_id moment _ s) by apply lookup_insert_eq.
    rewrite Ht. by destruct (associatedViews st). }
  destruct H as (Hf & Hl & Hc). repeat split; try done.
  by rewrite run_answers_course.
Qed.

Lemma error_on_omap {V} (f : string -> Verdict) (table : list (string * V)) attr :
  error_on attr
    (omap (fun '(a, _) => match f a with
                          | Fail msg => Some (a, msg)
                          | Pass | Skip => None
                          end) table) =
  match f attr with
  | Fail msg => if bool_decide (attr ∈ table.*1) then Some msg else None
  | Pass | Skip => None
  end.
Proof.
  induction table as [| [a v] table IH]; simpl in *.
  - by destruct (f attr).
  - destruct (decide (a = attr)) as [-> | Hne].
    + destruct (f attr) eqn:Hf; simpl; try done.
      rewrite bool_decide_eq_true_2 by done.
      by rewrite bool_decide_eq_true_2 by by left.
    + assert (error_on attr
        match match f a with
              | Fail msg => Some (a, msg)
              | Pass | Skip => None
              end with
        | Some y => y :: omap (fun '(a0, _) => match f a0 with
                                               | Fail msg => Some (a0, msg)
                                               | Pass | Skip => None
                                               end) table
        | None => omap (fun '(a0, _) => match f a0 with
                                        | Fail msg => Some (a0, msg)
                                        | Pass | Skip => None
                                        end) table
        end =
        error_on attr (omap (fun '(a0, _) => match f a0 with
                                             | Fail msg => Some (a0, msg)
                                             | Pass | Skip => None
                                             end) table)) as Hskip.
      { destruct (f a); simpl; try done. by rewrite bool_decide_eq_false_2. }
      etrans; [exact Hskip |]. etrans; [exact IH |].
      destruct (f attr); try done.
      repeat case_bool_decide; try done.
      * destruct H0. by right.
      * apply elem_of_cons in H0 as [-> | ?]; done.
Qed.

Lemma error_on_validate attrs attr :
  attr ∈ (validation moment).*1 ->
  error_on attr (validate moment attrs) =
  match validateAttr moment attrs attr (default VUndefined (attrs !! attr)) with
  | Fail msg => Some msg
  | Pass | Skip => None
  end.
Proof.
  intros Hin. unfold validate.
  etrans; [exact (error_on_omap
    (fun a => validateAttr moment attrs a (default VUndefined (attrs !! a)))
    (validation moment) attr) |].
  cbv beta. destruct (validateAttr _ _ _ _); try done.
  by rewrite bool_decide_eq_true_2.
Qed.

(** C4: when the start date and the end date both parse, [validate]
    reports no error on either if the start is strictly before the end,
    and otherwise the error of the order on both. *)
Theorem validate_dates attrs s e ts te :
  attrs !! "start_date" = Some s ->
  attrs !! "end_date" = Some e ->
  isEmpty s = false ->
  isEmpty e = false ->
  moment s dateFormat = At ts ->
  moment e dateFormat = At te ->
  (ts < te ->
   error_on "start_date" (validate moment attrs) = None /\
   error_on "end_date" (validate moment attrs) = None) /\
  (~ ts < te ->
   error_on "start_date" (validate moment attrs) = Some (Text "Must occur before end date") /\
   error_on "end_date" (validate moment attrs) = Some (Text "Must occur after start date")).
Proof.
  intros Hs He Hes Hee Hms Hme.
  rewrite !error_on_validate by (simpl; set_solver).
  unfold validateAttr. rewrite Hs, He. simpl.
  unfold validate_start_date, validate_end_date.
  rewrite Hs, He, Hes, Hee. simpl. rewrite Hms, Hme.
  unfold isBefore, isAfter. simpl.
  split; intros Hlt.
  - apply Z.ltb_lt in Hlt. by rewrite Hlt.
  - apply Z.ltb_nlt in Hlt. by rewrite Hlt.
Qed.

End Claims.

(** ** The scenarios *)

Lemma save_benefit_witness :
  (exists req, save (VStr "token") no_options enrollment_coupon = Ok req /\
     price (data req) = Some (parseFloat (get enrollment_coupon "price")) /\
     benefit_type (data req) = Some (VStr "Percentage") /\
     benefit_value (data req) = Some (int 100)) /\
  (exists req, save (VStr "token") no_options discount_coupon = Ok req /\
     price (data req) = Some (int 0) /\
     benefit_type (data req) = Some (get discount_coupon "benefit_type") /\
     benefit_value (data req) = Some (parseFloat (get discount_coupon "benefit_value"))).
Proof.
  split.
  - refine (proj1 (save_benefit (VStr "token") no_options enrollment_coupon
                     org_101 honor_course honor_seat _ _ _) _);
      vm_compute; reflexivity.
  - refine (proj2 (save_benefit (VStr "token") no_options discount_coupon
                     org_101 honor_course honor_seat _ _ _) _);
      vm_compute; reflexivity.
Defined.

Lemma save_quantity_witness :
  exists req, save (VStr "token") no_options discount_coupon = Ok req /\
    quantity (data req) =
      if negb (strict_eq (get discount_coupon "voucher_type") (VStr "Single use"))
         || isEmpty (get discount_coupon "quantity")
      then int 1 else parseInt (get discount_coupon "quantity").
Proof.
  apply (save_quantity (VStr "token") no_options discount_coupon
           org_101 honor_course honor_seat); vm_compute; reflexivity.
Defined.

Lemma save_stock_record_ids_witness :
  exists req, save (VStr "token") no_options honor_choice = Ok req /\
    stock_record_ids (data req) =
      map (fun r => parseInt (stockrecord_id r)) (stockrecords honor_seat) /\
    (stockrecords honor_seat = [ {| stockrecord_id := VStr "5" |} ] ->
     stock_record_ids (data req) = [int 5]).
Proof.
  apply (save_stock_record_ids (VStr "token") no_options honor_choice
           org_101 two_seat_course
           [ {| certificate_type := Some (VStr "verified");
                seatTypeDisplayName := VStr "Verified";
                stockrecords := [ {| stockrecord_id := VNum (int 7) |} ] |} ]
           honor_seat []).
  - vm_compute. reflexivity.
  - vm_compute. reflexivity.
  - reflexivity.
  - intros p Hp. apply list_elem_of_singleton in Hp as ->. vm_compute. discriminate.
  - vm_compute. reflexivity.
  - vm_compute. discriminate.
Defined.

Lemma save_without_seat_witness :
  save (VStr "token") no_options stale_coupon = Throw (TypeError "seat is undefined").
Proof.
  apply (save_without_seat (VStr "token") no_options stale_coupon
           org_101 honor_course); [vm_compute; reflexivity ..|].
  intros p Hp. apply list_elem_of_singleton in Hp as ->. vm_compute. discriminate.
Defined.

Lemma fillFromCourse_no_seats_witness :
  fillFromCourse empty_course new_coupon =
    (Throw (TypeError "seatTypes[0] is undefined"), with_seatTypes [] new_coupon) /\
  get (snd (fillFromCourse empty_course new_coupon)) "seat_type" =
    get new_coupon "seat_type".
Proof. apply (fillFromCourse_no_seats empty_course new_coupon). reflexivity. Defined.

Lemma changeVoucherType_quantity_kept_witness :
  get (snd (changeVoucherType (VStr "Single use") discount_coupon)) "quantity"
    = VNum (int 1) /\
  get (run strictMoment
         [ OpSet "title" (VStr "Spring"); OpFetched org_101 verified_course true ]
         (snd (changeVoucherType (VStr "Single use") discount_coupon))) "quantity"
    = VNum (int 1).
Proof.
  apply (changeVoucherType_quantity_kept strictMoment discount_coupon
           [ OpSet "title" (VStr "Spring"); OpFetched org_101 verified_course true ]).
  repeat constructor.
Defined.

Lemma course_id_change_witness :
  fetching (step strictMoment (OpSet "course_id" (VStr org_102)) one_change)
    = fetching one_change ++ [org_102] /\
  listeningTo (step strictMoment (OpSet "course_id" (VStr org_102)) one_change)
    = listeningTo one_change ++ [org_102] /\
  course (step strictMoment (OpSet "course_id" (VStr org_102)) one_change)
    = Some org_102 /\
  course (run strictMoment late_answers
            (step strictMoment (OpSet "course_id" (VStr org_102)) one_change))
    = Some org_102.
Proof.
  apply (course_id_change strictMoment one_change org_102 late_answers).
  - vm_compute. reflexivity.
  - vm_compute. discriminate.
  - repeat constructor.
Defined.

Lemma validate_dates_witness :
  (error_on "start_date" (validate strictMoment dates_in_order) = None /\
   error_on "end_date" (validate strictMoment dates_in_order) = None) /\
  (error_on "start_date" (validate strictMoment dates_out_of_order)
     = Some (Text "Must occur before end date") /\
   error_on "end_date" (validate strictMoment dates_out_of_order)
     = Some (Text "Must occur after start date")).
Proof.
  split.
  - refine (proj1 (validate_dates strictMoment dates_in_order
             (VStr "01/01/2024") (VStr "02/01/2024") 1704067200000 1706745600000
             _ _ _ _ _ _) _); first [lia | vm_compute; reflexivity].
  - refine (proj2 (validate_dates strictMoment dates_out_of_order
             (VStr "02/01/2024") (VStr "01/01/2024") 1706745600000 1704067200000
             _ _ _ _ _ _) _); first [lia | vm_compute; reflexivity].
Defined.

(** C3 on the code: with the voucher type Single use and the quantity 5
    held as a number, the integer value of the quantity is 5, yet
    [_.isEmpty] holds of every number and the payload has quantity 1. *)
Theorem save_quantity_number_five :
  get numbered_coupon "voucher_type" = VStr "Single use" /\
  get numbered_coupon "quantity" = VNum (int 5) /\
  parseInt (get numbered_coupon "quantity") = int 5 /\
  exists req, save (VStr "token") no_options numbered_coupon = Ok req /\
    quantity (data req) = int 1.
Proof.
  split_and!; [vm_compute; reflexivity .. |].
  eexists. split; vm_compute; reflexivity.
Qed.

(** C2, as stated, fails: on a coupon whose voucher type has been set to
    Single use, the quantity can be set to 5 afterwards; the voucher type
    is still Single use, and the payload asks for 5 vouchers. *)
Lemma single_use_quantity_counterexample :
  get discount_coupon "voucher_type" = VStr "Single use" /\
  get discount_coupon "quantity" = VStr "5" /\
  exists req, save (VStr "token") no_options discount_coupon = Ok req /\
    quantity (data req) = int 5.
Proof.
  split; [vm_compute; reflexivity |]. split; [vm_compute; reflexivity |].
  eexists. split; vm_compute; reflexivity.
Qed.

(** C5, as stated, fails: a text of four segments is accepted. *)
Lemma course_id_counterexample :
  isValid_attr strictMoment {[ "course_id" := VStr "a/b/c/d" ]} "course_id" = true /\
  three_segments "a/b/c/d" = false.
Proof. split; vm_compute; reflexivity. Qed.

(** C9, as stated, fails: after two changes of the course id, two
    subscriptions are in place, and the first still fires: when the answer
    to the first fetch arrives last, the seat type is the one of the first
    course while the course is the second. *)
Lemma subscriptions_counterexample :
  listeningTo two_changes = [org_101; org_102] /\
  course (run strictMoment late_answers two_changes) = Some org_102 /\
  get (run strictMoment late_answers two_changes) "seat_type" = VStr "honor".
Proof. repeat split; vm_compute; reflexivity. Qed.

(** * Further properties of the model *)

(** ** Validation *)

Section ValidationProperties.

Variable moment : JSValue -> string -> Moment.

Lemma validateAttr_required attrs attr value isRequired :
  getValidators (validation moment) attr = [required isRequired] ->
  validateAttr moment attrs attr value =
    if hasValue value then Pass
    else if isRequired attrs then Fail (IsRequired attr) else Skip.
Proof.
  intros H. unfold validateAttr. rewrite H. simpl.
  by destruct (isRequired attrs), (hasValue value).
Qed.

(** X1: on title, client_username and seat_type [validate] reports the
    missing attribute exactly when the value is undefined, null or a blank
    text. *)
Theorem required_attribute_error attrs attr :
  attr ∈ ["title"; "client_username"; "seat_type"] ->
  error_on attr (validate moment attrs) =
    if hasValue (default VUndefined (attrs !! attr)) then None
    else Some (IsRequired attr).
Proof.
  intros Hin.
  assert (attr ∈ (validation moment).*1 /\
          getValidators (validation moment) attr = [required (fun _ => true)])
    as [Hv Hr].
  { repeat (apply elem_of_cons in Hin as [-> | Hin]; [split; [in_list | done] |]).
    by apply elem_of_nil in Hin. }
  rewrite (error_on_validate moment attrs attr Hv).
  rewrite (validateAttr_required attrs attr _ (fun _ => true) Hr).
  by destruct (hasValue _).
Qed.

(** X2: the price is asked for only of an enrollment code and the benefit
    value only of a discount code, and never both. *)
Theorem price_and_benefit_value_errors attrs :
  error_on "price" (validate moment attrs) =
    (if isEnrollmentCode attrs && negb (hasValue (default VUndefined (attrs !! "price")))
     then Some (IsRequired "price") else None) /\
  error_on "benefit_value" (validate moment attrs) =
    (if isDiscountCode attrs
        && negb (hasValue (default VUndefined (attrs !! "benefit_value")))
     then Some (IsRequired "benefit_value") else None) /\
  (error_on "price" (validate moment attrs) = None \/
   error_on "benefit_value" (validate moment attrs) = None).
Proof.
  assert ("price" ∈ (validation moment).*1) as Hp by in_list.
  assert ("benefit_value" ∈ (validation moment).*1) as Hb by in_list.
  rewrite (error_on_validate moment attrs _ Hp), (error_on_validate moment attrs _ Hb).
  rewrite (validateAttr_required attrs "price" _ isEnrollmentCode) by reflexivity.
  rewrite (validateAttr_required attrs "benefit_value" _ isDiscountCode) by reflexivity.
  split_and!.
  - by destruct (hasValue _), (isEnrollmentCode attrs).
  - by destruct (hasValue _), (isDiscountCode attrs).
  - unfold isEnrollmentCode, isDiscountCode.
    destruct (strict_eq _ (VStr "enrollment")) eqn:He.
    + apply strict_eq_true in He as ->. right.
      by destruct (hasValue (default VUndefined (attrs !! "benefit_value"))).
    + left. by destruct (hasValue (default VUndefined (attrs !! "price"))).
Qed.

Lemma start_date_verdict attrs :
  error_on "start_date" (validate moment attrs) =
    Text <$> validate_start_date moment attrs (default VUndefined (attrs !! "start_date")).
Proof.
  rewrite error_on_validate by in_list.
  unfold validateAttr. simpl. by destruct (validate_start_date _ _ _).
Qed.

Lemma end_date_verdict attrs :
  error_on "end_date" (validate moment attrs) =
    Text <$> validate_end_date moment attrs (default VUndefined (attrs !! "end_date")).
Proof.
  rewrite error_on_validate by in_list.
  unfold validateAttr. simpl. by destruct (validate_end_date _ _ _).
Qed.

(** X3: the first rule that fails decides the message of a date: an empty
    value is reported as missing, and a value whose moment is not valid as
    invalid, whatever the other date is. *)
Theorem date_rule_order attrs :
  let s := default VUndefined (attrs !! "start_date") in
  let e := default VUndefined (attrs !! "end_date") in
  (isEmpty s = true ->
   error_on "start_date" (validate moment attrs) = Some (Text "Start date is required")) /\
  (isEmpty s = false -> isValid (moment s dateFormat) = false ->
   error_on "start_date" (validate moment attrs) = Some (Text "Start date is invalid")) /\
  (isEmpty e = true ->
   error_on "end_date" (validate moment attrs) = Some (Text "End date is required")) /\
  (isEmpty e = false -> isValid (moment e dateFormat) = false ->
   error_on "end_date" (validate moment attrs) = Some (Text "End date is invalid")).
Proof.
  intros s e. rewrite start_date_verdict, end_date_verdict.
  unfold validate_start_date, validate_end_date. fold s e.
  split_and!.
  - by intros ->.
  - by intros -> ->.
  - by intros ->.
  - by intros -> ->.
Qed.

(** X4: once a date is there and its moment is valid, the rule of the
    order is decided by [isBefore] (for the end date, [isAfter]) alone: the
    guard on the other date tests a moment object and always holds, so the
    comparison runs also when the other date is missing or does not parse,
    against whatever time its moment carries. *)
Theorem date_without_the_other attrs :
  let s := default VUndefined (attrs !! "start_date") in
  let e := default VUndefined (attrs !! "end_date") in
  (isEmpty s = false -> isValid (moment s dateFormat) = true ->
   error_on "start_date" (validate moment attrs) =
     if isBefore (moment s dateFormat) (moment e dateFormat) then None
     else Some (Text "Must occur before end date")) /\
  (isEmpty e = false -> isValid (moment e dateFormat) = true ->
   error_on "end_date" (validate moment attrs) =
     if isAfter (moment e dateFormat) (moment s dateFormat) then None
     else Some (Text "Must occur after start date")).
Proof.
  intros s e. rewrite start_date_verdict, end_date_verdict.
  unfold validate_start_date, validate_end_date. fold s e.
  split.
  - intros -> ->. simpl. by destruct (isBefore _ _).
  - intros -> ->. simpl. by destruct (isAfter _ _).
Qed.

Lemma validateAttr_course_id attrs value :
  validateAttr moment attrs "course_id" value =
    if hasValue value && test courseId (to_string value) then Pass
    else Fail (Text "The course ID is invalid.").
Proof.
  unfold validateAttr. simpl.
  change (patterns "courseId") with (Some courseId). cbv beta iota.
  by destruct (hasValue value), (test courseId (to_string value)).
Qed.

Lemma omap_nil_iff {A B} (f : A -> option B) l :
  omap f l = [] <-> Forall (fun x => f x = None) l.
Proof.
  induction l as [| x l IH]; simpl.
  - split; [constructor | done].
  - rewrite Forall_cons. destruct (f x); [| by rewrite IH; tauto].
    split; [done | by intros [? _]].
Qed.

Lemma no_error_iff (attr : string) (v : Verdict) :
  match v with
  | Fail msg => Some (attr, msg)
  | Pass | Skip => None
  end = None <-> forall msg, v <> Fail msg.
Proof. destruct v; split; try done. intros H. by destruct (H msg). Qed.

Lemma required_passes_iff (hv req : bool) (attr : string) :
  (forall msg, (if hv then Pass else if req then Fail (IsRequired attr) else Skip)
               <> Fail msg) <->
  (req = true -> hv = true).
Proof.
  destruct hv, req; split; try done.
  - intros H. by destruct (H _ eq_refl).
  - intros H. by discriminate H.
Qed.

Lemma pattern_passes_iff (b : bool) (m : Message) :
  (forall msg, (if b then Pass else Fail m) <> Fail msg) <-> b = true.
Proof.
  destruct b; split; try done. intros H. by destruct (H _ eq_refl).
Qed.

Lemma fn_passes_iff (r : option string) :
  (forall msg, combine Pass match r with
                            | Some m => Fail (Text m)
                            | None => Pass
                            end <> Fail msg) <-> r = None.
Proof.
  destruct r; split; try done. intros H. by destruct (H _ eq_refl).
Qed.

Lemma isAfter_isBefore m other : isAfter m other = isBefore other m.
Proof. unfold isAfter, isBefore. by destruct (time_of m), (time_of other). Qed.

Lemma dates_pass_iff attrs :
  validate_start_date moment attrs (default VUndefined (attrs !! "start_date")) = None /\
  validate_end_date moment attrs (default VUndefined (attrs !! "end_date")) = None <->
  isEmpty (default VUndefined (attrs !! "start_date")) = false /\
  isEmpty (default VUndefined (attrs !! "end_date")) = false /\
  isValid (moment (default VUndefined (attrs !! "start_date")) dateFormat) = true /\
  isValid (moment (default VUndefined (attrs !! "end_date")) dateFormat) = true /\
  isBefore (moment (default VUndefined (attrs !! "start_date")) dateFormat)
           (moment (default VUndefined (attrs !! "end_date")) dateFormat) = true.
Proof.
  unfold validate_start_date, validate_end_date. rewrite isAfter_isBefore.
  set (s := default VUndefined (attrs !! "start_date")).
  set (e := default VUndefined (attrs !! "end_date")). clearbody s e.
  destruct (isEmpty s), (isEmpty e),
    (isValid (moment s dateFormat)), (isValid (moment e dateFormat)),
    (isBefore (moment s dateFormat) (moment e dateFormat)); simpl;
    (split; [intros [? ?] | intros (? & ? & ? & ? & ?)]); done.
Qed.

(** The form passes the validation: what that asks of each attribute. *)
Lemma validate_nil_iff attrs :
  let v := fun key => default VUndefined (attrs !! key) in
  validate moment attrs = [] <->
  hasValue (v "course_id") && test courseId (to_string (v "course_id")) = true /\
  hasValue (v "title") = true /\
  hasValue (v "client_username") = true /\
  hasValue (v "seat_type") = true /\
  (isEnrollmentCode attrs = true -> hasValue (v "price") = true) /\
  (isDiscountCode attrs = true -> hasValue (v "benefit_value") = true) /\
  isEmpty (v "start_date") = false /\
  isEmpty (v "end_date") = false /\
  isValid (moment (v "start_date") dateFormat) = true /\
  isValid (moment (v "end_date") dateFormat) = true /\
  isBefore (moment (v "start_date") dateFormat) (moment (v "end_date") dateFormat) = true.
Proof.
  intros v. unfold validate. rewrite omap_nil_iff. unfold validation.
  rewrite !Forall_cons, Forall_nil, !no_error_iff.
  rewrite validateAttr_course_id.
  rewrite (validateAttr_required attrs "title" _ (fun _ => true)) by done.
  rewrite (validateAttr_required attrs "client_username" _ (fun _ => true)) by done.
  rewrite (validateAttr_required attrs "seat_type" _ (fun _ => true)) by done.
  rewrite (validateAttr_required attrs "price" _ isEnrollmentCode) by done.
  rewrite (validateAttr_required attrs "benefit_value" _ isDiscountCode) by done.
  rewrite pattern_passes_iff, !required_passes_iff.
  unfold validateAttr. simpl. rewrite !fn_passes_iff, !pattern_passes_iff.
  pose proof (dates_pass_iff attrs) as Hd. unfold v. tauto.
Qed.

(** X5: [validate] reports nothing exactly when the course id has a part
    of the shape of the pattern, title, client_username and seat_type have
    a value, the price has one if the code is an enrollment code and the
    benefit value if it is a discount code, and both dates are there, with
    valid moments, the start strictly before the end. *)
Theorem validate_nothing_iff attrs :
  let v := fun key => default VUndefined (attrs !! key) in
  validate moment attrs = [] <->
  hasValue (v "course_id") && test courseId (to_string (v "course_id")) = true /\
  hasValue (v "title") = true /\
  hasValue (v "client_username") = true /\
  hasValue (v "seat_type") = true /\
  (isEnrollmentCode attrs = true -> hasValue (v "price") = true) /\
  (isDiscountCode attrs = true -> hasValue (v "benefit_value") = true) /\
  isEmpty (v "start_date") = false /\
  isEmpty (v "end_date") = false /\
  isValid (moment (v "start_date") dateFormat) = true /\
  isValid (moment (v "end_date") dateFormat) = true /\
  isBefore (moment (v "start_date") dateFormat) (moment (v "end_date") dateFormat) = true.
Proof. apply validate_nil_iff. Qed.

End ValidationProperties.

(** ** Setting attributes and loading the course *)

Lemma with_attribute_same key val st :
  attributes st !! key = Some val -> with_attribute key val st = st.
Proof.
  intros H. destruct st as [attrs ? ? ? ? ? ?]. unfold with_attribute. simpl in *.
  f_equal. by apply insert_id.
Qed.

Lemma findOrCreate_lookup key store : is_Some (findOrCreate key store !! key).
Proof.
  unfold findOrCreate. destruct (store !! key) eqn:H.
  - by rewrite H.
  - by rewrite lookup_insert_eq.
Qed.

Lemma findOrCreate_keeps key store k :
  is_Some (store !! k) -> is_Some (findOrCreate key store !! k).
Proof.
  intros Hk. unfold findOrCreate. destruct (store !! key) eqn:H; [done |].
  destruct (decide (key = k)) as [-> | Hne].
  - by rewrite lookup_insert_eq.
  - by rewrite lookup_insert_ne.
Qed.

Lemma remove_first_sublist key l : remove_first key l `sublist_of` l.
Proof.
  induction l as [| k l IH]; simpl; [done |].
  case_bool_decide; [by apply sublist_cons | by apply sublist_skip].
Qed.

Lemma trigger_change_not_listening key c listeners : forall st,
  key ∉ listeners -> trigger_change key c listeners st = (Ok tt, st).
Proof.
  induction listeners as [| k l IH]; intros st Hnot; simpl; [done |].
  apply not_elem_of_cons in Hnot as [Hne Hnot].
  rewrite bool_decide_eq_false_2 by done. by apply IH.
Qed.

(** A second run of the handler on the same course changes nothing more. *)
Lemma fillFromCourse_again c st :
  fillFromCourse c (snd (fillFromCourse c st)) = fillFromCourse c st.
Proof.
  unfold fillFromCourse. destruct (map _ (seats c)) as [| first l]; [done |].
  unfold set_attr, with_attribute, with_seatTypes. simpl.
  by rewrite insert_insert_eq.
Qed.

(** One run of the handler stands for all the subscriptions to a course. *)
Lemma trigger_change_listening key c listeners st :
  key ∈ listeners ->
  trigger_change key c listeners st = fillFromCourse c st.
Proof.
  revert st. induction listeners as [| k l IH]; intros st Hin.
  - by apply elem_of_nil in Hin.
  - simpl. case_bool_decide as Hk.
    + unfold mbind, M_bind.
      pose proof (fillFromCourse_again c st) as Hagain.
      destruct (fillFromCourse c st) as [[[] | e] st1] eqn:Hfill; [| done].
      simpl in Hagain. destruct (decide (key ∈ l)) as [Hl | Hl].
      * by rewrite IH.
      * by apply trigger_change_not_listening.
    + apply IH. apply elem_of_cons in Hin as [-> | Hin]; done.
Qed.

(** X11: when a model has subscribed to a course several times, one change
    of the course leaves the model as a single run of [fillFromCourse]
    does, be it with its exception. *)
Theorem trigger_change_once key c listeners st :
  key ∈ listeners ->
  trigger_change key c listeners st = fillFromCourse c st.
Proof. apply trigger_change_listening. Qed.

Lemma fillFromCourse_views c st :
  associatedViews (snd (fillFromCourse c st)) = associatedViews st.
Proof. unfold fillFromCourse. by destruct (map _ (seats c)). Qed.

Lemma trigger_change_views key c listeners : forall st,
  associatedViews (snd (trigger_change key c listeners st)) = associatedViews st.
Proof.
  induction listeners as [| k l IH]; intros st; simpl; [done |].
  case_bool_decide; [| by apply IH].
  unfold mbind, M_bind.
  pose proof (fillFromCourse_views c st) as Hv.
  destruct (fillFromCourse c st) as [[[] | e] st1]; simpl in *; [| done].
  by rewrite IH.
Qed.

Section ModelProperties.

Variable moment : JSValue -> string -> Moment.

Lemma isValid_course_id_value attrs v :
  attrs !! "course_id" = Some v ->
  isValid_attr moment attrs "course_id" = hasValue v && test courseId (to_string v).
Proof.
  intros H. unfold isValid_attr. rewrite H. simpl.
  rewrite validateAttr_course_id. by destruct (hasValue v && _).
Qed.

(** With a view bound, [loadCourse] does nothing on a course id that fails
    the pattern. *)
Lemma set_course_id_rejected st v :
  (0 < associatedViews st)%nat ->
  hasValue v && test courseId (to_string v) = false ->
  set moment "course_id" v st = (Ok tt, with_attribute "course_id" v st).
Proof.
  intros Hviews H. unfold set. destruct (negb _); [| done].
  rewrite bool_decide_eq_false_2 by done. rewrite bool_decide_eq_true_2 by done.
  unfold loadCourse, isValid_through_views. cbn [associatedViews with_attribute].
  destruct (associatedViews st) as [| n]; [lia |].
  rewrite (isValid_course_id_value _ v) by apply lookup_insert_eq.
  by rewrite H.
Qed.

(** X6: when a view is bound to the model, a course id that does not pass
    the pattern is written and nothing else happens: no course is looked
    up, no subscription is added and no fetch is issued. *)
Theorem course_id_rejected st v :
  (0 < associatedViews st)%nat ->
  hasValue v && test courseId (to_string v) = false ->
  set moment "course_id" v st = (Ok tt, with_attribute "course_id" v st).
Proof. apply set_course_id_rejected. Qed.

(** X23: when no view is bound to the model, [isValid] checks nothing and
    every change of the course id, whatever the text, makes the model look
    the course up, subscribe to it and fetch it. *)
Theorem course_id_unchecked st s :
  associatedViews st = O ->
  get st "course_id" <> VStr s ->
  let st' := step moment (OpSet "course_id" (VStr s)) st in
  course st' = Some s /\
  listeningTo st' = listeningTo st ++ [s] /\
  fetching st' = fetching st ++ [s].
Proof.
  intros Hviews Hne st'. subst st'. unfold step, set, isEqual.
  rewrite (bool_decide_eq_false_2 (get st "course_id" = VStr s)) by done.
  cbn [negb]. rewrite bool_decide_eq_false_2 by done.
  rewrite bool_decide_eq_true_2 by done.
  unfold loadCourse, isValid_through_views. cbn [associatedViews with_attribute].
  by rewrite Hviews.
Qed.

(** X17: to set an attribute to the value it has does nothing: no handler
    runs, so the course is not fetched again and the quantity is not
    reset. *)
Theorem set_same_value st key val :
  attributes st !! key = Some val ->
  set moment key val st = (Ok tt, st).
Proof.
  intros H. unfold set, isEqual, get. rewrite H. simpl.
  rewrite bool_decide_eq_true_2 by done. simpl.
  by rewrite with_attribute_same.
Qed.

Lemma set_frame_other key val st :
  key <> "course_id" ->
  let st' := snd (set moment key val st) in
  course st' = course st /\ listeningTo st' = listeningTo st /\
  courses st' = courses st /\ fetching st' = fetching st.
Proof.
  intros Hne. unfold set. destruct (negb _); [| done].
  case_bool_decide.
  - unfold changeVoucherType. by destruct (strict_eq _ _).
  - by rewrite bool_decide_eq_false_2.
Qed.

Lemma set_views key val st :
  associatedViews (snd (set moment key val st)) = associatedViews st.
Proof.
  unfold set. destruct (negb _); [| done].
  case_bool_decide.
  - unfold changeVoucherType. by destruct (strict_eq _ _).
  - case_bool_decide; [| done].
    unfold loadCourse. by destruct (isValid_through_views _ _).
Qed.

Lemma step_views op st : associatedViews (step moment op st) = associatedViews st.
Proof.
  destruct op as [key val | key c fires]; simpl; [apply set_views |].
  unfold fetched. case_bool_decide; [| done].
  destruct fires; [| done]. by rewrite trigger_change_views.
Qed.

Lemma loadCourse_consistent v st :
  consistent st -> consistent (snd (loadCourse moment v st)).
Proof.
  intros (Hc & Hf & Hs). unfold loadCourse.
  destruct (isValid_through_views _ _); [| done].
  unfold consistent. simpl. split_and!.
  - by rewrite last_snoc.
  - by apply sublist_app.
  - apply Forall_app. split.
    + eapply Forall_impl; [exact Hs |]. intros k. apply findOrCreate_keeps.
    + constructor; [apply findOrCreate_lookup | constructor].
Qed.

Lemma set_consistent key val st :
  consistent st -> consistent (snd (set moment key val st)).
Proof.
  intros Hst.
  destruct (decide (key = "course_id")) as [-> | Hne].
  - unfold set. destruct (negb _); [| done].
    rewrite bool_decide_eq_false_2 by done. rewrite bool_decide_eq_true_2 by done.
    by apply loadCourse_consistent.
  - destruct Hst as (Hc & Hf & Hs).
    destruct (set_frame_other key val st Hne) as (H1 & H2 & H3 & H4).
    unfold consistent. by rewrite H1, H2, H3, H4.
Qed.

Lemma changeVoucherType_consistent v st :
  consistent st -> consistent (snd (changeVoucherType v st)).
Proof. unfold changeVoucherType. by destruct (strict_eq _ _). Qed.

Lemma fetched_consistent key c fires st :
  consistent st -> consistent (snd (fetched key c fires st)).
Proof.
  intros (Hc & Hf & Hs). unfold fetched. case_bool_decide; [| done].
  match goal with
  | |- consistent (snd (if fires then trigger_change _ _ ?l ?s else _)) =>
      assert (consistent s) as Hs';
      [| destruct fires; [| done];
         destruct (trigger_change_frame key c l s) as (H1 & H2 & H3 & H4);
         unfold consistent; by rewrite H1, H2, H3, H4]
  end.
  unfold consistent. simpl. split_and!; [done | |].
  - etrans; [apply remove_first_sublist | done].
  - eapply Forall_impl; [exact Hs |]. intros k Hk.
    destruct (decide (key = k)) as [-> | Hne].
    + by rewrite lookup_insert_eq.
    + by rewrite lookup_insert_ne.
Qed.

Lemma create_consistent attrs store : consistent (create moment attrs store).
Proof.
  unfold create.
  assert (forall st, consistent st ->
    consistent match attrs !! "course_id" with
               | Some v => if isEqual VUndefined v then st
                           else snd (loadCourse moment v st)
               | None => st
               end) as Hload.
  { intros st Hst. destruct (attrs !! "course_id") as [v |]; [| done].
    destruct (isEqual VUndefined v); [done |]. by apply loadCourse_consistent. }
  apply Hload.
  assert (forall st, consistent st ->
    consistent match attrs !! "voucher_type" with
               | Some v => if isEqual VUndefined v then st
                           else snd (changeVoucherType v st)
               | None => st
               end) as Hvoucher.
  { intros st Hst. destruct (attrs !! "voucher_type") as [v |]; [| done].
    destruct (isEqual VUndefined v); [done |]. by apply changeVoucherType_consistent. }
  apply Hvoucher. apply set_consistent.
  unfold consistent. simpl. split_and!; [done | done | constructor].
Qed.

(** The model as the constructor leaves it before the handlers of the
    attributes run. *)
Lemma create_before_course attrs store :
  let st :=
    match attrs !! "voucher_type" with
    | Some v =>
        if isEqual VUndefined v
        then snd (initialize moment
                    {| attributes := attrs; seatTypes := None; course := None;
                       listeningTo := []; courses := store; fetching := [];
                       associatedViews := O |})
        else snd (changeVoucherType v
               (snd (initialize moment
                       {| attributes := attrs; seatTypes := None; course := None;
                          listeningTo := []; courses := store; fetching := [];
                          associatedViews := O |})))
    | None =>
        snd (initialize moment
               {| attributes := attrs; seatTypes := None; course := None;
                  listeningTo := []; courses := store; fetching := [];
                  associatedViews := O |})
    end in
  listeningTo st = [] /\ fetching st = [] /\ associatedViews st = O /\
  get st "quantity" = VNum (int 1).
Proof.
  assert (forall st0 : State,
    let st1 := snd (initialize moment st0) in
    listeningTo st1 = listeningTo st0 /\ fetching st1 = fetching st0 /\
    associatedViews st1 = associatedViews st0 /\
    get st1 "quantity" = VNum (int 1)) as Hinit.
  { intros st0. unfold initialize, set. destruct (negb _); simpl;
      by rewrite get_with_attribute_eq. }
  cbv zeta. destruct (attrs !! "voucher_type") as [v |]; [| apply Hinit].
  destruct (isEqual VUndefined v); [apply Hinit |].
  match goal with
  | |- context [initialize moment ?st0] =>
      destruct (Hinit st0) as (H1 & H2 & H3 & H4)
  end.
  unfold changeVoucherType. destruct (strict_eq _ _); simpl;
    rewrite ?get_with_attribute_eq; by split_and!.
Qed.

(** X18: the attributes a model is made with do run the handlers, once
    [initialize] has registered them: made with a course id, the model
    looks the course up, subscribes to it and fetches it at once, and as no
    view is bound yet, whatever the text of the id; the quantity is 1. *)
Theorem create_loads_course attrs store s :
  attrs !! "course_id" = Some (VStr s) ->
  let st := create moment attrs store in
  course st = Some s /\ listeningTo st = [s] /\ fetching st = [s] /\
  get st "quantity" = VNum (int 1).
Proof.
  intros Hs st. subst st. unfold create. rewrite Hs.
  change (isEqual VUndefined (VStr s)) with false. cbv iota.
  destruct (create_before_course attrs store) as (Hl & Hf & Hv & Hq).
  cbv zeta in Hl, Hf, Hv, Hq.
  unfold loadCourse, isValid_through_views. rewrite Hv, Hl, Hf. by simpl.
Qed.

(** X7: in every state a model reaches by writes of its primitive
    attributes and by answers to its fetches, its course is the one of the
    last subscription, every fetch without an answer has its subscription,
    and the store has a course for every subscription; so the course of
    the model is never missing from the store. *)
Theorem reachable_consistent attrs store ops :
  attrs !! "course" = None ->
  attrs !! "seatTypes" = None ->
  Forall (fun op => writes_relation op = false) ops ->
  let st := run moment ops (create moment attrs store) in
  consistent st /\
  (forall key, course st = Some key -> is_Some (courses st !! key)).
Proof.
  intros _ _ _.
  assert (forall st, consistent st -> consistent (run moment ops st)) as Hrun.
  { induction ops as [| op ops IH]; intros st Hst; [done |].
    simpl. apply IH. destruct op; simpl.
    - by apply set_consistent.
    - by apply fetched_consistent. }
  intros st. subst st. pose proof (Hrun _ (create_consistent attrs store)) as Hst.
  split; [done |].
  destruct Hst as (Hc & _ & Hs). intros key Hkey.
  rewrite Hc in Hkey. apply last_Some_elem_of in Hkey.
  by apply (proj1 (Forall_forall _ _) Hs).
Qed.

(** X8: no operation ends a subscription: those in place stay, in their
    order, whatever happens next. *)
Theorem subscriptions_stay st ops :
  listeningTo st `prefix_of` listeningTo (run moment ops st).
Proof.
  revert st. induction ops as [| op ops IH]; intros st; [done |].
  simpl. etrans; [| apply IH]. destruct op as [key val | key c fires]; simpl.
  - destruct (decide (key = "course_id")) as [-> | Hne].
    + unfold set. destruct (negb _); [| done].
      rewrite bool_decide_eq_false_2 by done. rewrite bool_decide_eq_true_2 by done.
      unfold loadCourse. destruct (isValid_through_views _ _); [| done].
      simpl. by apply prefix_app_r.
    + by destruct (set_frame_other key val st Hne) as (_ & -> & _).
  - unfold fetched. case_bool_decide; [| done].
    match goal with
    | |- _ `prefix_of` listeningTo (snd (if fires then trigger_change _ _ ?l ?s else _)) =>
        destruct fires; [| done];
        by destruct (trigger_change_frame key c l s) as (_ & -> & _)
    end.
Qed.

Lemma step_course_none op st :
  (0 < associatedViews st)%nat ->
  enters_course op = false -> course st = None -> course (step moment op st) = None.
Proof.
  destruct op as [key val | key c fires]; simpl; intros Hviews Hop Hc.
  - destruct (decide (key = "course_id")) as [-> | Hne].
    + rewrite bool_decide_eq_true_2 in Hop by done. simpl in Hop.
      by rewrite set_course_id_rejected.
    + by destruct (set_frame_other key val st Hne) as (-> & _).
  - by rewrite fetched_course.
Qed.

(** X9: when a view is bound to a model that has no course, the model has
    none, and [save] throws, for as long as no course id that passes the
    pattern is set, whatever else is written to the primitive attributes
    and whatever answers arrive. *)
Theorem save_without_course csrftoken options st ops :
  course st = None ->
  (0 < associatedViews st)%nat ->
  Forall (fun op => enters_course op = false) ops ->
  Forall (fun op => writes_relation op = false) ops ->
  let st' := run moment ops st in
  course st' = None /\
  save csrftoken options st' = Throw (TypeError "this.get('course') is null").
Proof.
  intros Hc Hviews Hops _ st'.
  assert (course st' = None) as Hc'.
  { subst st'. revert st Hc Hviews.
    induction Hops as [| op ops Hop _ IH]; intros st Hc Hviews; [done |].
    simpl. apply IH; [by apply step_course_none | by rewrite step_views]. }
  split; [done |]. unfold save. by rewrite Hc'.
Qed.

(** X15: a course id that is accepted has at least five characters, two
    of them separators. *)
Theorem accepted_course_id_size attrs s :
  isValid_attr moment (<["course_id" := VStr s]> attrs) "course_id" = true ->
  (5 <= String.length s)%nat /\ (2 <= separators s)%nat.
Proof.
  rewrite (isValid_course_id moment _ s) by apply lookup_insert_eq.
  intros H. apply test_courseId_spec in H.
  destruct H as (pre & a & x & b & y & c & post & Hs & Ha & Hx & Hb & Hy & Hc).
  assert (String.length s = length (list_ascii_of_string s)) as ->.
  { clear. induction s as [| ch s IH]; simpl; [done | by rewrite IH]. }
  unfold separators. rewrite Hs.
  destruct Ha as [Ha _], Hb as [Hb _], Hc as [Hc _].
  apply is_separator_spec in Hx, Hy.
  rewrite !filter_app, !length_app. simpl.
  rewrite !filter_cons, !filter_nil, Hx, Hy.
  rewrite !decide_True by done. simpl.
  destruct a, b, c; simpl; try done. lia.
Qed.

End ModelProperties.

(** ** More on the request [save] builds *)

Lemma strict_eq_false a b : a <> b -> strict_eq a b = false.
Proof.
  intros H. destruct (strict_eq a b) eqn:Heq; [| done].
  by apply strict_eq_true in Heq.
Qed.

(** X10: when the answer to the fetch of the course of the model arrives
    and the course fires its change event, and the first product has a
    certificate type, that type becomes the seat type and [save] finds that
    product: the default [fillFromCourse] chooses can always be saved. *)
Theorem fetched_then_save csrftoken options st key c p ps v :
  course st = Some key ->
  key ∈ fetching st ->
  key ∈ listeningTo st ->
  products c = p :: ps ->
  certificate_type p = Some v ->
  v <> VNum NaN ->
  let st' := snd (fetched key c true st) in
  get st' "seat_type" = v /\
  save csrftoken options st' =
    Ok {| request_options := defaults options csrftoken; data := build_data st' p |}.
Proof.
  intros Hc Hf Hl Hp Hcert Hv st'.
  assert (get st' "seat_type" = v /\ course st' = Some key /\
          courses st' !! key = Some c) as (Hseat & Hc' & Hs').
  { subst st'. unfold fetched.
    rewrite bool_decide_eq_true_2 by done.
    rewrite trigger_change_listening by done.
    unfold fillFromCourse, seats. rewrite Hp. simpl.
    unfold get_certificate_type. rewrite Hcert. simpl.
    split_and!; [apply get_with_attribute_eq | done | apply lookup_insert_eq]. }
  split; [done |].
  apply (save_ok csrftoken options st' key c p Hc' Hs').
  rewrite Hseat, Hp. simpl. unfold is_match. rewrite Hcert.
  by rewrite strict_eq_refl.
Qed.

(** X12: the quantity of the payload differs from 1 only when the voucher
    type is Single use and the quantity of the model is a text that is not
    empty, and then it is the integer parsed from that text. *)
Theorem save_quantity_not_one csrftoken options st key c seat :
  course st = Some key ->
  courses st !! key = Some c ->
  findWhere (products c) (get st "seat_type") = Some seat ->
  exists req, save csrftoken options st = Ok req /\
    (quantity (data req) <> int 1 ->
     get st "voucher_type" = VStr "Single use" /\
     exists s, get st "quantity" = VStr s /\ s <> "" /\
               quantity (data req) = parseInt (VStr s)).
Proof.
  intros Hc Hs Hf. rewrite (save_ok csrftoken options _ _ _ _ Hc Hs Hf).
  eexists; split; [reflexivity |]. unfold build_data. cbn [voucher_type data].
  assert (forall d, quantity
    (if strict_eq (get st "code_type") (VStr "enrollment") then
       with_benefit (parseFloat (get st "price")) (VStr "Percentage") (int 100) d
     else if strict_eq (get st "code_type") (VStr "discount") then
       with_benefit (int 0) (get st "benefit_type")
                    (parseFloat (get st "benefit_value")) d
     else d) = quantity d) as Hq.
  { intros d. by destruct (strict_eq (get st "code_type") (VStr "enrollment")),
      (strict_eq (get st "code_type") (VStr "discount")). }
  rewrite Hq.
  destruct (strict_eq (get st "voucher_type") (VStr "Single use")) eqn:Hvt;
    simpl; [| done].
  apply strict_eq_true in Hvt.
  destruct (get st "quantity") as [| | b | n | s] eqn:Hqty; simpl; try done.
  case_bool_decide as Hempty; simpl; [done |].
  intros _. split; [done |]. by exists s.
Qed.

(** X13: when the code type is neither enrollment nor discount, be it
    missing, [save] still builds a request, and its payload has no price,
    no benefit type and no benefit value. *)
Theorem save_other_code_type csrftoken options st key c seat :
  course st = Some key ->
  courses st !! key = Some c ->
  findWhere (products c) (get st "seat_type") = Some seat ->
  get st "code_type" <> VStr "enrollment" ->
  get st "code_type" <> VStr "discount" ->
  exists req, save csrftoken options st = Ok req /\
    price (data req) = None /\
    benefit_type (data req) = None /\
    benefit_value (data req) = None.
Proof.
  intros Hc Hs Hf He Hd. rewrite (save_ok csrftoken options _ _ _ _ Hc Hs Hf).
  eexists; split; [reflexivity |]. unfold build_data. cbn [voucher_type data].
  rewrite !strict_eq_false by done. by destruct (negb _ || _).
Qed.

(** X14: the defaults fill in only what the caller left out: the options
    of a request, given to [save] again, come back as they are, so the
    token of the first request is sent again whatever the cookie holds
    by then. *)
Theorem save_options_reused csrftoken csrftoken' options st req :
  save csrftoken options st = Ok req ->
  save csrftoken' (request_options req) st = Ok req.
Proof.
  unfold save.
  destruct (course st) as [key |]; [| done].
  destruct (courses st !! key) as [c |]; [| done].
  destruct (findWhere _ _) as [seat |]; [| done].
  by intros [= <-].
Qed.

(** ** Decimal numerals *)

Lemma digit_of_char x :
  (x < 10)%N -> digit_of (pretty_N_char x) = Some (Z.of_N x).
Proof.
  intros H.
  assert (x = 0 \/ x = 1 \/ x = 2 \/ x = 3 \/ x = 4 \/ x = 5 \/ x = 6 \/ x = 7
          \/ x = 8 \/ x = 9)%N as Hx by lia.
  repeat (destruct Hx as [-> | Hx]; [reflexivity |]). by subst.
Qed.

Lemma digits_value_snoc ds d :
  digits_value 10 (ds ++ [d]) = digits_value 10 ds * 10 + d.
Proof. unfold digits_value. by rewrite fold_left_app. Qed.

(** The digits [pretty_N_go] puts before a text are read back. *)
Lemma take_digits_pretty_go x : forall s ds rest,
  take_digits digit_of s = (ds, rest) ->
  exists dx, take_digits digit_of (pretty_N_go x s) = (dx ++ ds, rest) /\
             digits_value 10 dx = Z.of_N x /\ (x <> 0%N -> dx <> []).
Proof.
  induction (N.lt_wf_0 x) as [x _ IH]. intros s ds rest Hs.
  destruct (decide (x = 0%N)) as [-> | Hx].
  - exists []. by rewrite pretty_N_go_0.
  - rewrite pretty_N_go_step by lia.
    assert (take_digits digit_of (String (pretty_N_char (x `mod` 10)) s)
            = (Z.of_N (x `mod` 10) :: ds, rest)) as Hs'.
    { cbn [take_digits]. rewrite digit_of_char by (apply N.mod_lt; lia).
      by rewrite Hs. }
    destruct (IH (x `div` 10)%N (N.div_lt x 10 ltac:(lia) eq_refl) _ _ _ Hs')
      as (dx & Hdx & Hval & _).
    exists (dx ++ [Z.of_N (x `mod` 10)]). split_and!.
    + by rewrite <- app_assoc.
    + rewrite digits_value_snoc, Hval.
      rewrite (N.div_mod x 10) at 3 by lia. lia.
    + intros _. by destruct dx.
Qed.

Lemma take_digits_pretty_pos p :
  exists d ds, take_digits digit_of (pretty (Zpos p)) = (d :: ds, "") /\
               digits_value 10 (d :: ds) = Zpos p.
Proof.
  destruct (take_digits_pretty_go (Npos p) "" [] "" eq_refl) as (dx & Hdx & Hval & Hne).
  rewrite app_nil_r in Hdx. destruct dx as [| d ds]; [by destruct Hne |].
  exists d, ds. split; [exact Hdx | exact Hval].
Qed.

Lemma digit_of_code c d :
  digit_of c = Some d -> 48 <= JS.code c <= 57.
Proof.
  unfold digit_of. destruct (_ && _) eqn:H; [| done]. intros _.
  apply andb_true_iff in H as [H1 H2]. lia.
Qed.

(** A text that is digits to its end does not start as a hexadecimal one. *)
Lemma no_hex_prefix s d ds :
  take_digits digit_of s = (d :: ds, "") ->
  match s with
  | String "0" (String "x" s') | String "0" (String "X" s') => (16, hex_digit_of, s')
  | _ => (10, digit_of, s)
  end = (10, digit_of, s).
Proof.
  intros H.
  destruct s as [| c1 [| c2 s']]; [done | by destruct c1 as [[] [] [] [] [] [] [] []] |].
  assert (exists d2, digit_of c2 = Some d2) as [d2 Hd2].
  { cbn [take_digits] in H. destruct (digit_of c1); [| done].
    destruct (digit_of c2) as [d2 |]; [by exists d2 |]. by injection H. }
  apply digit_of_code in Hd2.
  assert (c2 <> "x"%char /\ c2 <> "X"%char) as [Hx HX].
  { split; intros ->; vm_compute in Hd2; destruct Hd2 as [H1 H2];
      first [by destruct H1 | by destruct H2]. }
  destruct c1 as [[] [] [] [] [] [] [] []]; try done.
  destruct c2 as [[] [] [] [] [] [] [] []]; done.
Qed.

Lemma digit_first s d ds rest :
  take_digits digit_of s = (d :: ds, rest) ->
  skip_spaces s = s /\ take_sign s = (false, s).
Proof.
  destruct s as [| c s']; [done |]. cbn [take_digits].
  destruct (digit_of c) as [d' |] eqn:Hc; [| done]. intros _.
  apply digit_of_code in Hc. split.
  - cbn [skip_spaces]. unfold is_space.
    destruct ((9 <=? JS.code c) && (JS.code c <=? 13) || (JS.code c =? 32)
              || (JS.code c =? 160)) eqn:Hsp; [| done].
    apply orb_true_iff in Hsp as [Hsp | Hsp]; [| lia].
    apply orb_true_iff in Hsp as [Hsp | Hsp]; [apply andb_true_iff in Hsp |]; lia.
  - assert (c <> "-"%char /\ c <> "+"%char) as [Hm Hp].
    { split; intros ->; vm_compute in Hc; destruct Hc as [H1 H2];
        first [by destruct H1 | by destruct H2]. }
    by destruct c as [[] [] [] [] [] [] [] []].
Qed.

Lemma round_integer_small z : Z.abs z < 2 ^ 53 -> round_integer z = int z.
Proof.
  intros H. unfold round_integer. cbv zeta.
  by rewrite (proj2 (Z.ltb_lt _ _) H).
Qed.

(** [parseInt] reads the decimal numeral of an integer that a number holds
    exactly back as that integer. *)
Lemma parseInt_numeral (z : Z) :
  Z.abs z < 2 ^ 53 -> parseInt (VStr (pretty z)) = int z.
Proof.
  intros Hz. destruct z as [| p | p].
  - reflexivity.
  - destruct (take_digits_pretty_pos p) as (d & ds & Hd & Hval).
    unfold parseInt. cbn [to_string].
    destruct (digit_first _ _ _ _ Hd) as [-> ->]. cbv beta iota zeta.
    rewrite (no_hex_prefix _ d ds Hd). cbv beta iota zeta.
    rewrite Hd. cbv beta iota zeta. rewrite Hval. by apply round_integer_small.
  - destruct (take_digits_pretty_pos p) as (d & ds & Hd & Hval).
    change (pretty (Z.neg p)) with (String "-" (pretty (Zpos p))).
    unfold parseInt. cbn [to_string skip_spaces].
    change (is_space "-") with false. cbv beta iota zeta. cbn [take_sign].
    cbv beta iota zeta.
    rewrite (no_hex_prefix _ d ds Hd). cbv beta iota zeta.
    rewrite Hd. cbv beta iota zeta. rewrite Hval. by apply round_integer_small.
Qed.

(** X16: the stock record ids that are decimal numerals of integers below
    2^53 in size reach the payload as the integers they write: a seat whose
    ids are the numerals of a list of such integers gives that list. *)
Theorem save_numeral_ids csrftoken options st key c seat zs :
  course st = Some key ->
  courses st !! key = Some c ->
  findWhere (products c) (get st "seat_type") = Some seat ->
  stockrecords seat = numeral_stockrecords zs ->
  Forall (fun z => Z.abs z < 2 ^ 53) zs ->
  exists req, save csrftoken options st = Ok req /\
    stock_record_ids (data req) = map int zs.
Proof.
  intros Hc Hs Hf Hz Hsmall. rewrite (save_ok csrftoken options _ _ _ _ Hc Hs Hf).
  eexists; split; [reflexivity |]. cbn [data].
  assert (stock_record_ids (build_data st seat) =
          map (fun r => parseInt (stockrecord_id r)) (stockrecords seat)) as ->.
  { unfold build_data.
    by destruct (negb _ || _), (strict_eq (get st "code_type") (VStr "enrollment")),
      (strict_eq (get st "code_type") (VStr "discount")). }
  rewrite Hz. unfold numeral_stockrecords. rewrite map_map. simpl.
  clear Hz. induction Hsmall as [| z zs' Hz' _ IH]; [done |].
  simpl. rewrite parseInt_numeral by done. by rewrite IH.
Qed.

(** ** The further properties on the scenarios *)

Lemma required_attribute_error_witness :
  error_on "title" (validate strictMoment ∅) =
    if hasValue (default VUndefined ((∅ : gmap string JSValue) !! "title")) then None
    else Some (IsRequired "title").
Proof. apply (required_attribute_error strictMoment ∅ "title"). in_list. Defined.

Lemma date_rule_order_witness :
  error_on "start_date" (validate strictMoment bad_start_date)
    = Some (Text "Start date is invalid") /\
  error_on "end_date" (validate strictMoment start_date_only)
    = Some (Text "End date is required").
Proof.
  split.
  - refine (proj1 (proj2 (date_rule_order strictMoment bad_start_date)) _ _);
      vm_compute; reflexivity.
  - refine (proj1 (proj2 (proj2 (date_rule_order strictMoment start_date_only))) _);
      vm_compute; reflexivity.
Defined.

Lemma date_without_the_other_witness :
  error_on "start_date" (validate strictMoment start_date_only)
    = Some (Text "Must occur before end date") /\
  error_on "start_date" (validate (datedMoment new_year_2026) start_date_only) = None.
Proof.
  split.
  - refine (proj1 (date_without_the_other strictMoment start_date_only) _ _);
      vm_compute; reflexivity.
  - refine (proj1 (date_without_the_other (datedMoment new_year_2026) start_date_only) _ _);
      vm_compute; reflexivity.
Defined.

Lemma course_id_rejected_witness :
  set strictMoment "course_id" (VStr "Org/101") bound_coupon =
    (Ok tt, with_attribute "course_id" (VStr "Org/101") bound_coupon).
Proof.
  apply (course_id_rejected strictMoment bound_coupon (VStr "Org/101")).
  - vm_compute. lia.
  - vm_compute. reflexivity.
Defined.

Lemma course_id_unchecked_witness :
  course (step strictMoment (OpSet "course_id" (VStr "Org/101")) new_coupon)
    = Some "Org/101" /\
  listeningTo (step strictMoment (OpSet "course_id" (VStr "Org/101")) new_coupon)
    = listeningTo new_coupon ++ ["Org/101"] /\
  fetching (step strictMoment (OpSet "course_id" (VStr "Org/101")) new_coupon)
    = fetching new_coupon ++ ["Org/101"].
Proof.
  apply (course_id_unchecked strictMoment new_coupon "Org/101").
  - reflexivity.
  - vm_compute. discriminate.
Defined.

Lemma create_loads_course_witness :
  course (create strictMoment {[ "course_id" := VStr "Org/101" ]} ∅) = Some "Org/101" /\
  listeningTo (create strictMoment {[ "course_id" := VStr "Org/101" ]} ∅) = ["Org/101"] /\
  fetching (create strictMoment {[ "course_id" := VStr "Org/101" ]} ∅) = ["Org/101"] /\
  get (create strictMoment {[ "course_id" := VStr "Org/101" ]} ∅) "quantity"
    = VNum (int 1).
Proof.
  apply (create_loads_course strictMoment {[ "course_id" := VStr "Org/101" ]} ∅ "Org/101").
  vm_compute. reflexivity.
Defined.

Lemma reachable_consistent_witness :
  consistent (run strictMoment
                [ OpFetched org_101 honor_course true;
                  OpSet "course_id" (VStr org_102) ]
                (create strictMoment {[ "course_id" := VStr org_101 ]} ∅)) /\
  (forall key,
     course (run strictMoment
               [ OpFetched org_101 honor_course true;
                 OpSet "course_id" (VStr org_102) ]
               (create strictMoment {[ "course_id" := VStr org_101 ]} ∅)) = Some key ->
     is_Some (courses (run strictMoment
                         [ OpFetched org_101 honor_course true;
                           OpSet "course_id" (VStr org_102) ]
                         (create strictMoment {[ "course_id" := VStr org_101 ]} ∅))
              !! key)).
Proof.
  apply (reachable_consistent strictMoment {[ "course_id" := VStr org_101 ]} ∅
           [ OpFetched org_101 honor_course true; OpSet "course_id" (VStr org_102) ]).
  - vm_compute. reflexivity.
  - vm_compute. reflexivity.
  - repeat (constructor; [vm_compute; reflexivity |]). constructor.
Defined.

Lemma save_without_course_witness :
  course (run strictMoment
            [ OpSet "title" (VStr "Spring codes"); OpSet "course_id" (VStr "Org/101");
              OpFetched org_101 honor_course true ]
            bound_coupon) = None /\
  save (VStr "token") no_options
    (run strictMoment
       [ OpSet "title" (VStr "Spring codes"); OpSet "course_id" (VStr "Org/101");
         OpFetched org_101 honor_course true ]
       bound_coupon)
    = Throw (TypeError "this.get('course') is null").
Proof.
  apply (save_without_course strictMoment (VStr "token") no_options bound_coupon
           [ OpSet "title" (VStr "Spring codes"); OpSet "course_id" (VStr "Org/101");
             OpFetched org_101 honor_course true ]).
  - reflexivity.
  - vm_compute. lia.
  - repeat (constructor; [vm_compute; reflexivity |]). constructor.
  - repeat (constructor; [vm_compute; reflexivity |]). constructor.
Defined.

Lemma fetched_then_save_witness :
  get (snd (fetched org_101 honor_course true one_change)) "seat_type" = VStr "honor" /\
  save (VStr "token") no_options (snd (fetched org_101 honor_course true one_change)) =
    Ok {| request_options := defaults no_options (VStr "token");
          data := build_data (snd (fetched org_101 honor_course true one_change))
                    honor_seat |}.
Proof.
  apply (fetched_then_save (VStr "token") no_options one_change org_101
           honor_course honor_seat [] (VStr "honor")).
  - vm_compute. reflexivity.
  - vm_compute. by left.
  - vm_compute. by left.
  - reflexivity.
  - reflexivity.
  - discriminate.
Defined.

Lemma trigger_change_once_witness :
  trigger_change org_101 honor_course [org_101; org_102; org_101] new_coupon =
    fillFromCourse honor_course new_coupon.
Proof.
  apply (trigger_change_once org_101 honor_course [org_101; org_102; org_101] new_coupon).
  by left.
Defined.

Lemma save_quantity_not_one_witness :
  exists req, save (VStr "token") no_options discount_coupon = Ok req /\
    (quantity (data req) <> int 1 ->
     get discount_coupon "voucher_type" = VStr "Single use" /\
     exists s, get discount_coupon "quantity" = VStr s /\ s <> "" /\
               quantity (data req) = parseInt (VStr s)).
Proof.
  apply (save_quantity_not_one (VStr "token") no_options discount_coupon
           org_101 honor_course honor_seat); vm_compute; reflexivity.
Defined.

Lemma save_other_code_type_witness :
  exists req, save (VStr "token") no_options untyped_coupon = Ok req /\
    price (data req) = None /\
    benefit_type (data req) = None /\
    benefit_value (data req) = None.
Proof.
  apply (save_other_code_type (VStr "token") no_options untyped_coupon
           org_101 honor_course honor_seat);
    first [vm_compute; reflexivity | vm_compute; discriminate].
Defined.

Lemma save_options_reused_witness :
  save (VStr "later token") (defaults no_options (VStr "token")) enrollment_coupon =
    Ok {| request_options := defaults no_options (VStr "token");
          data := build_data enrollment_coupon honor_seat |}.
Proof.
  apply (save_options_reused (VStr "token") (VStr "later token") no_options
           enrollment_coupon
           {| request_options := defaults no_options (VStr "token");
              data := build_data enrollment_coupon honor_seat |}).
  vm_compute. reflexivity.
Defined.

Lemma accepted_course_id_size_witness :
  (5 <= String.length org_101)%nat /\ (2 <= separators org_101)%nat.
Proof.
  apply (accepted_course_id_size strictMoment ∅ org_101). vm_compute. reflexivity.
Defined.

Lemma save_numeral_ids_witness :
  exists req, save (VStr "token") no_options enrollment_coupon = Ok req /\
    stock_record_ids (data req) = map int [5].
Proof.
  apply (save_numeral_ids (VStr "token") no_options enrollment_coupon
           org_101 honor_course honor_seat [5]).
  - vm_compute. reflexivity.
  - vm_compute. reflexivity.
  - vm_compute. reflexivity.
  - reflexivity.
  - constructor; [| constructor]. change (5 < 9007199254740992). lia.
Defined.

Lemma set_same_value_witness :
  set strictMoment "voucher_type" (VStr "Single use") discount_coupon =
    (Ok tt, discount_coupon).
Proof.
  apply (set_same_value strictMoment discount_coupon "voucher_type" (VStr "Single use")).
  vm_compute. reflexivity.
Defined.

(** ** What an operation leaves alone *)

Section FrameProperties.

Variable moment : JSValue -> string -> Moment.

(** X19: to set a primitive attribute changes no other primitive
    attribute, but for the quantity, which becomes 1 when the voucher type
    changes to Single use. *)
Theorem set_other_attribute st key val attr :
  relation_key key = false ->
  relation_key attr = false ->
  key <> attr ->
  get (snd (set moment key val st)) attr =
    if bool_decide (attr = "quantity") && bool_decide (key = "voucher_type")
       && strict_eq val (VStr "Single use") && negb (isEqual (get st key) val)
    then VNum (int 1) else get st attr.
Proof.
  intros _ _ Hne. unfold set.
  destruct (negb (isEqual (get st key) val)); simpl.
  - case_bool_decide as Hk.
    + unfold changeVoucherType. destruct (strict_eq _ _); simpl.
      * case_bool_decide as Ha; simpl.
        -- subst attr. apply get_with_attribute_eq.
        -- by rewrite !get_with_attribute_ne.
      * rewrite andb_false_r. simpl. by apply get_with_attribute_ne.
    + rewrite andb_false_r. simpl. case_bool_decide.
      * rewrite loadCourse_get. by apply get_with_attribute_ne.
      * by apply get_with_attribute_ne.
  - rewrite andb_false_r. by apply get_with_attribute_ne.
Qed.

(** X20: the answer to a fetch changes no attribute but the seat type
    (and the seat types), and neither the course of the model nor its
    subscriptions. *)
Theorem answer_frame key c fires st :
  let st' := snd (fetched key c fires st) in
  (forall attr, attr <> "seat_type" -> get st' attr = get st attr) /\
  course st' = course st /\
  listeningTo st' = listeningTo st.
Proof.
  intros st'. subst st'. split_and!.
  - intros attr Hattr. by apply fetched_get.
  - apply fetched_course.
  - unfold fetched. case_bool_decide; [| done].
    match goal with
    | |- listeningTo (snd (if fires then trigger_change _ _ ?l ?s else _)) = _ =>
        destruct fires; [| done];
        by destruct (trigger_change_frame key c l s) as (_ & -> & _)
    end.
Qed.

Lemma isEnrollmentCode_insert key val attrs :
  key <> "code_type" ->
  isEnrollmentCode (<[key := val]> attrs) = isEnrollmentCode attrs.
Proof. intros H. unfold isEnrollmentCode. by rewrite lookup_insert_ne. Qed.

Lemma isDiscountCode_insert key val attrs :
  key <> "code_type" ->
  isDiscountCode (<[key := val]> attrs) = isDiscountCode attrs.
Proof. intros H. unfold isDiscountCode. by rewrite lookup_insert_ne. Qed.

Lemma validateAttr_insert key val attrs attr value :
  key ∉ validated_inputs ->
  validateAttr moment (<[key := val]> attrs) attr value =
  validateAttr moment attrs attr value.
Proof.
  intros Hkey. unfold validated_inputs in Hkey.
  rewrite !not_elem_of_cons in Hkey.
  destruct Hkey as (? & ? & ? & ? & ? & ? & ? & ? & ? & _).
  unfold validateAttr, validation, getValidators.
  repeat (case_bool_decide; [
    simpl; unfold validate_start_date, validate_end_date;
    rewrite ?isEnrollmentCode_insert, ?isDiscountCode_insert by done;
    by rewrite ?lookup_insert_ne by done |]).
  done.
Qed.

(** X22: the validation reads the course id, the title, the client, the
    seat type, the price, the benefit value, the two dates and the code
    type, and nothing else: whatever the quantity, the voucher type, the
    code or the benefit type hold, the same errors are reported. *)
Theorem validate_ignores key val attrs :
  key ∉ validated_inputs ->
  validate moment (<[key := val]> attrs) = validate moment attrs.
Proof.
  intros Hkey. unfold validate, validation. simpl.
  rewrite !validateAttr_insert by done.
  unfold validated_inputs in Hkey. rewrite !not_elem_of_cons in Hkey.
  destruct Hkey as (? & ? & ? & ? & ? & ? & ? & ? & ? & _).
  by rewrite !lookup_insert_ne by done.
Qed.

(** X21: the validation does not ask for a code type: a form that passes
    passes without its code type as well. *)
Theorem validate_without_code_type attrs :
  validate moment attrs = [] ->
  validate moment (delete "code_type" attrs) = [].
Proof.
  rewrite !validate_nil_iff. cbv zeta.
  rewrite !lookup_delete_ne by done.
  intros (? & ? & ? & ? & _ & _ & ? & ? & ? & ? & ?).
  split_and!; try done.
  - unfold isEnrollmentCode. by rewrite lookup_delete_eq.
  - unfold isDiscountCode. by rewrite lookup_delete_eq.
Qed.

End FrameProperties.

Lemma set_other_attribute_witness :
  get (snd (set strictMoment "voucher_type" (VStr "Single use") enrollment_coupon))
      "quantity" =
    if bool_decide ("quantity" = "quantity")
       && bool_decide ("voucher_type" = "voucher_type")
       && strict_eq (VStr "Single use") (VStr "Single use")
       && negb (isEqual (get enrollment_coupon "voucher_type") (VStr "Single use"))
    then VNum (int 1) else get enrollment_coupon "quantity".
Proof.
  apply (set_other_attribute strictMoment enrollment_coupon "voucher_type"
           (VStr "Single use") "quantity").
  - reflexivity.
  - reflexivity.
  - discriminate.
Defined.

Lemma validate_ignores_witness :
  validate strictMoment (<["quantity" := VStr "many"]> complete_form) =
    validate strictMoment complete_form.
Proof.
  apply (validate_ignores strictMoment "quantity" (VStr "many") complete_form).
  unfold validated_inputs. rewrite !not_elem_of_cons. split_and!; try done.
  apply not_elem_of_nil.
Defined.

Lemma validate_without_code_type_witness :
  validate strictMoment (delete "code_type" complete_form) = [].
Proof.
  apply (validate_without_code_type strictMoment complete_form).
  vm_compute. reflexivity.
Defined.
